(** * The [duckdb__scraping__property] load, embedded and verified

    The source is one Python function, [parse_jsonl_and_write_to_duckdb],
    around two SQL statements.  The function reads a JSON-lines file with
    an explicit Arrow schema, makes sure the [properties] table exists,
    and appends the rows a filtering and deriving query selects.

    The embedding follows that shape:
    - [Text]: the string functions the query calls;
    - [Engine]: the DOUBLE arithmetic of the query engine, as an interface;
    - section [Load]: the Arrow schema and the schema-checked reader, the
      tables with the two statements and the row count, and the Python
      function in a monad of store, log and exception;
    - [Exact]: an engine to evaluate the examples with.

    The properties come after the definitions: facts about the text
    functions, about the statements and the run, and then the claims of
    the specification, each with the example input it is tried on.  A
    last part has further properties of the same code: what a run keeps
    and never touches, how runs repeat, and what the log and the
    exception of a run tell. *)

From Stdlib Require Import ZArith QArith String Ascii List Lia.
From stdpp Require Import gmap strings list fin_maps.

Open Scope string_scope.

(** ** String functions of the query *)

Module Text.

(** One pass over [s], cutting at every occurrence of [sep].  After a
    match the remaining bytes of the separator are passed over through
    [skip]; [cur] is the piece being collected. *)
Fixpoint split_from (sep : string) (skip : nat) (cur s : string) : list string :=
  match s with
  | EmptyString => [cur]
  | String c s' =>
      match skip with
      | S k => split_from sep k cur s'
      | O =>
          if String.prefix sep s
          then cur :: split_from sep (String.length sep - 1) "" s'
          else split_from sep 0 (cur ++ String c "") s'
      end
  end.

(** With an empty separator the string falls apart into its bytes. *)
Definition string_split (s sep : string) : list string :=
  match sep with
  | EmptyString => (fun c => String c "") <$> list_ascii_of_string s
  | _ => split_from sep 0 "" s
  end.

(** [SPLIT_PART(s, sep, index)], [index] counted from one; a part that
    does not exist is the empty string. *)
Definition SPLIT_PART (s sep : string) (index : nat) : string :=
  match index with
  | O => ""
  | S i => default "" (string_split s sep !! i)
  end.

Fixpoint replace_from (source target : string) (skip : nat) (s : string) : string :=
  match s with
  | EmptyString => ""
  | String c s' =>
      match skip with
      | S k => replace_from source target k s'
      | O =>
          if String.prefix source s
          then target ++ replace_from source target (String.length source - 1) s'
          else String c (replace_from source target 0 s')
      end
  end.

(** [REPLACE(s, source, target)]: every occurrence, left to right; an
    empty [source] leaves [s] as it is. *)
Definition REPLACE (s source target : string) : string :=
  match source with
  | EmptyString => s
  | _ => replace_from source target 0 s
  end.

(** The currency marker of the query is the three bytes of U+20AC. *)
Definition euro : string := "€".

(** The two steps in words, to compare the query's calls with: the
    text before the first occurrence of a marker (all of it when there
    is none), and a text without its spaces. *)
Fixpoint text_before (marker s : string) : string :=
  match s with
  | EmptyString => ""
  | String c s' =>
      if String.prefix marker s then "" else String c (text_before marker s')
  end.

Fixpoint without_spaces (s : string) : string :=
  match s with
  | EmptyString => ""
  | String c s' =>
      if Ascii.eqb c " " then without_spaces s' else String c (without_spaces s')
  end.

(** The wider reading of the second step: a text without any of the
    six ASCII whitespace characters (tab, line feed, vertical tab, form
    feed, carriage return, space). *)
Definition whitespace (c : ascii) : bool :=
  let n := nat_of_ascii c in
  (Nat.leb 9 n && Nat.leb n 13) || Nat.eqb n 32.

Fixpoint without_whitespace (s : string) : string :=
  match s with
  | EmptyString => ""
  | String c s' =>
      if whitespace c then without_whitespace s' else String c (without_whitespace s')
  end.

(** Well-formed UTF-8: the text the engine accepts into a table.  No
    byte outside a sequence, no overlong form, no surrogate, nothing
    above U+10FFFF. *)
Definition between (lo hi : N) (c : ascii) : bool :=
  (N.leb lo (N_of_ascii c) && N.leb (N_of_ascii c) hi)%bool.

Fixpoint valid_utf8 (s : string) : bool :=
  match s with
  | EmptyString => true
  | String c0 s1 =>
      let b0 := N_of_ascii c0 in
      if N.ltb b0 128 then valid_utf8 s1
      else if between 194 223 c0 then
        match s1 with
        | String c1 s2 => between 128 191 c1 && valid_utf8 s2
        | _ => false
        end
      else if between 224 239 c0 then
        match s1 with
        | String c1 (String c2 s3) =>
            between (if N.eqb b0 224 then 160 else 128)
                    (if N.eqb b0 237 then 159 else 191) c1
            && between 128 191 c2 && valid_utf8 s3
        | _ => false
        end
      else if between 240 244 c0 then
        match s1 with
        | String c1 (String c2 (String c3 s4)) =>
            between (if N.eqb b0 240 then 144 else 128)
                    (if N.eqb b0 244 then 143 else 191) c1
            && between 128 191 c2 && between 128 191 c3 && valid_utf8 s4
        | _ => false
        end
      else false
  end.

(** Whether [marker] occurs somewhere in [s]. *)
Fixpoint occurs (marker s : string) : bool :=
  match s with
  | EmptyString => String.prefix marker ""
  | String _ s' => String.prefix marker s || occurs marker s'
  end.

End Text.

(** ** The engine's DOUBLE arithmetic

    The query leaves the arithmetic to the engine.  The development is
    generic in it: a carrier for DOUBLE values and the five operations
    the query uses. *)

Class Engine (D : Type) : Type := {
  (** [TRY_CAST(text AS DOUBLE)]: [None] is SQL NULL, the failed cast. *)
  TRY_CAST_DOUBLE : string -> option D;
  (** [a / b]; [None] where the engine answers NULL. *)
  divide : D -> D -> option D;
  (** [ROUND(x, digits)]. *)
  ROUND : D -> Z -> D;
  (** an integer literal, taken to DOUBLE for a comparison. *)
  of_integer : Z -> D;
  (** [a <= b]. *)
  le : D -> D -> bool
}.

(** ** Exceptions and results *)

Inductive exn : Type :=
| ArrowInvalid                            (* pyarrow: the input breaks the schema *)
| CatalogException                        (* duckdb: no such table *)
| BinderException                         (* duckdb: column count mismatch *)
| ConversionException                     (* duckdb: value of another type *)
| InvalidInputException                   (* duckdb: text that is no UTF-8 *)
| ConstraintException (column : string).  (* duckdb: NOT NULL constraint failed *)

Inductive result (A : Type) : Type :=
| Ok (a : A)
| Raise (e : exn).

Arguments Ok {A} a.
Arguments Raise {A} e.

Definition rbind {A B : Type} (m : result A) (k : A -> result B) : result B :=
  match m with
  | Ok a => k a
  | Raise e => Raise e
  end.

(** All checks of a list, the first failure winning. *)
Fixpoint rmap {A B : Type} (f : A -> result B) (l : list A) : result (list B) :=
  match l with
  | [] => Ok []
  | x :: l' => rbind (f x) (fun y => rbind (rmap f l') (fun ys => Ok (y :: ys)))
  end.

#[global] Instance result_ret : MRet result := @Ok.
#[global] Instance result_bind : MBind result := fun A B k m => rbind m k.

Section Load.

Context {D : Type} {engine : Engine D}.

(** ** The Arrow side: [PA_SCHEMA] and [pyarrow.json.read_json] *)

Inductive pa_type : Type := pa_string | pa_float64.

Record pa_field : Type := {
  f_name : string;
  f_type : pa_type;
  f_nullable : bool
}.

(** [pa.field(name, type)] is nullable unless told otherwise. *)
Definition id_field := {| f_name := "id"; f_type := pa_string; f_nullable := false |}.
Definition raw_price_field := {| f_name := "raw_price"; f_type := pa_string; f_nullable := true |}.
Definition living_area_field := {| f_name := "living_area"; f_type := pa_float64; f_nullable := true |}.
Definition property_type_field := {| f_name := "property_type"; f_type := pa_string; f_nullable := true |}.
Definition municipality_field := {| f_name := "municipality"; f_type := pa_string; f_nullable := true |}.
Definition scraping_date_field := {| f_name := "scraping_date"; f_type := pa_string; f_nullable := true |}.

Definition PA_SCHEMA : list pa_field :=
  [ id_field; raw_price_field; living_area_field;
    property_type_field; municipality_field; scraping_date_field ].

(** A JSON value as the reader sees it.  A number comes as the DOUBLE it
    denotes; arrays and objects are only known to be nested values. *)
Inductive jvalue : Type :=
| JNull
| JString (s : string)
| JNumber (d : D)
| JBool (b : bool)
| JNested.

(** An input object, by the members the load can be sensitive to;
    [None] is an absent key.  The first six are the members the schema
    names.  The reader is called with its default for unexpected keys,
    which keeps them as further columns of the table; the query names
    two columns beyond the schema's, [price] and [price_per_square_meter],
    so a number under one of these two keys is part of the object.
    Members under other keys, and other values under these two, are not
    represented: the statements here say nothing of objects that have
    them. *)
Record json_object : Type := {
  j_id : option jvalue;
  j_raw_price : option jvalue;
  j_living_area : option jvalue;
  j_property_type : option jvalue;
  j_municipality : option jvalue;
  j_scraping_date : option jvalue;
  j_price : option D;
  j_price_per_square_meter : option D
}.

(** An entry of the file, in the order of the file: an object, or text
    that is no JSON object.  The reader cuts the file into JSON values,
    not into physical lines: a blank line is no entry, and two objects
    on one line are two entries. *)
Inductive line : Type :=
| Malformed
| Object (o : json_object).

(** The values an Arrow column of a given type holds. *)
Definition cell (t : pa_type) : Type :=
  match t with
  | pa_string => string
  | pa_float64 => D
  end.

(** A value is taken into a column of type [t] when it is null or of
    the kind [t] asks for. *)
Definition convert_value (t : pa_type) (v : jvalue) : result (option (cell t)) :=
  match t return result (option (cell t)) with
  | pa_string =>
      match v with
      | JNull => Ok None
      | JString s => Ok (Some s)
      | _ => Raise ArrowInvalid
      end
  | pa_float64 =>
      match v with
      | JNull => Ok None
      | JNumber d => Ok (Some d)
      | _ => Raise ArrowInvalid
      end
  end.

(** An absent member counts as null; a null under a field that is not
    nullable is refused. *)
Definition convert (f : pa_field) (v : option jvalue) : result (option (cell (f_type f))) :=
  c ← (match v with
       | None => Ok None
       | Some j => convert_value (f_type f) j
       end);
  match c with
  | None => if f_nullable f then Ok None else Raise ArrowInvalid
  | Some _ => Ok c
  end.

(** A row of [arrow_table]: a cell in each column of the schema, and in
    each of the two unexpected columns the query can name where the table
    has that column ([None] in the outer option: the table has no such
    column). *)
Record raw_record : Type := {
  id : option string;
  raw_price : option string;
  living_area : option D;
  property_type : option string;
  municipality : option string;
  scraping_date : option string;
  column_price : option (option D);
  column_price_per_square_meter : option (option D)
}.

(** An unexpected key makes a column of the whole table as soon as one
    object has it. *)
Definition names_price (l : line) : bool :=
  match l with
  | Object o => bool_decide (is_Some (j_price o))
  | Malformed => false
  end.

Definition names_price_per_square_meter (l : line) : bool :=
  match l with
  | Object o => bool_decide (is_Some (j_price_per_square_meter o))
  | Malformed => false
  end.

(** One entry as a row of a table that has, or has not, the two
    unexpected columns; an object without the key has a null cell. *)
Definition read_line_with (has_price has_ratio : bool) (l : line) : result raw_record :=
  match l with
  | Malformed => Raise ArrowInvalid
  | Object o =>
      c_id ← convert id_field (j_id o);
      c_raw_price ← convert raw_price_field (j_raw_price o);
      c_living_area ← convert living_area_field (j_living_area o);
      c_property_type ← convert property_type_field (j_property_type o);
      c_municipality ← convert municipality_field (j_municipality o);
      c_scraping_date ← convert scraping_date_field (j_scraping_date o);
      Ok {| id := c_id;
            raw_price := c_raw_price;
            living_area := c_living_area;
            property_type := c_property_type;
            municipality := c_municipality;
            scraping_date := c_scraping_date;
            column_price := if has_price then Some (j_price o) else None;
            column_price_per_square_meter :=
              if has_ratio then Some (j_price_per_square_meter o) else None |}
  end.

(** One entry of a file none of whose objects has one of the two keys. *)
Definition read_line (l : line) : result raw_record := read_line_with false false l.

(** [pyarrow.json.read_json(f, explicit_schema=PA_SCHEMA)]: the whole
    file or an exception.  A file without entries is refused. *)
Definition read_json (file : list line) : result (list raw_record) :=
  match file with
  | [] => Raise ArrowInvalid
  | _ =>
      rmap (read_line_with (existsb names_price file)
                      (existsb names_price_per_square_meter file)) file
  end.

Definition num_rows (pa_table : list raw_record) : Z := Z.of_nat (length pa_table).

(** ** The DuckDB side: values, tables, the two statements *)

Inductive sql_type : Type := TEXT | DOUBLE.

Inductive value : Type :=
| VNull
| VText (s : string)
| VDouble (d : D).

Record column : Type := {
  c_name : string;
  c_type : sql_type;
  c_not_null : bool
}.

Record table : Type := {
  t_columns : list column;
  t_rows : list (list value)
}.

(** The column list of [CREATE_DUCKDB_TABLE_QUERY]. *)
Definition properties_columns : list column :=
  [ {| c_name := "id"; c_type := TEXT; c_not_null := true |};
    {| c_name := "scraping_date"; c_type := TEXT; c_not_null := true |};
    {| c_name := "property_type"; c_type := TEXT; c_not_null := true |};
    {| c_name := "municipality"; c_type := TEXT; c_not_null := true |};
    {| c_name := "price"; c_type := DOUBLE; c_not_null := true |};
    {| c_name := "living_area"; c_type := DOUBLE; c_not_null := true |};
    {| c_name := "price_per_square_meter"; c_type := DOUBLE; c_not_null := true |} ].

(** [CREATE TABLE IF NOT EXISTS properties (...)]: a table of that name
    is left as it is, whatever its columns. *)
Definition CREATE_DUCKDB_TABLE_QUERY (db : gmap string table) : gmap string table :=
  match db !! "properties" with
  | Some _ => db
  | None => <["properties" := {| t_columns := properties_columns; t_rows := [] |}]> db
  end.

(** *** The select list *)

(** [TRY_CAST(REPLACE(SPLIT_PART(raw_price, '€', 1), ' ', '') AS DOUBLE)];
    a NULL [raw_price] goes through as NULL. *)
Definition price (r : raw_record) : option D :=
  s ← raw_price r;
  TRY_CAST_DOUBLE (Text.REPLACE (Text.SPLIT_PART s Text.euro 1) " " "").

(** What the name [price] stands for in [price / living_area]: a column
    of the table comes before an item of the select list, so it is the
    column [price] where [arrow_table] has one, and the item above
    otherwise. *)
Definition price_operand (r : raw_record) : option D :=
  match column_price r with
  | Some c => c
  | None => price r
  end.

(** [ROUND(price / living_area, 2)]. *)
Definition price_per_square_meter (r : raw_record) : option D :=
  p ← price_operand r;
  a ← living_area r;
  q ← divide p a;
  Some (ROUND q 2).

Definition text (o : option string) : value :=
  match o with
  | Some s => VText s
  | None => VNull
  end.

Definition double (o : option D) : value :=
  match o with
  | Some d => VDouble d
  | None => VNull
  end.

Definition select_list (r : raw_record) : list value :=
  [ text (id r);
    text (scraping_date r);
    text (property_type r);
    text (municipality r);
    double (price r);
    double (living_area r);
    double (price_per_square_meter r) ].

(** *** The WHERE clause, in three-valued logic: [None] is UNKNOWN *)

Definition sql_and (a b : option bool) : option bool :=
  match a, b with
  | Some false, _ | _, Some false => Some false
  | Some true, Some true => Some true
  | _, _ => None
  end.

(** [x IN (l)] for a list of literals, none of them NULL. *)
Definition sql_in (x : option string) (l : list string) : option bool :=
  s ← x; Some (bool_decide (s ∈ l)).

(** [x BETWEEN lo AND hi] is [x >= lo AND x <= hi]. *)
Definition sql_between (x : option D) (lo hi : D) : option bool :=
  d ← x; Some (le lo d && le d hi).

(** [x > y] on text: the order of the bytes. *)
Definition sql_gt (x : option string) (y : string) : option bool :=
  s ← x; Some (String.ltb y s).

(** What the name [price_per_square_meter] stands for in the WHERE
    clause, by the same rule: the column of that name where
    [arrow_table] has one, the item of the select list otherwise. *)
Definition ratio_operand (r : raw_record) : option D :=
  match column_price_per_square_meter r with
  | Some c => c
  | None => price_per_square_meter r
  end.

Definition where_clause (r : raw_record) : option bool :=
  sql_and
    (sql_and (sql_in (property_type r) ["apartment"; "house"])
             (sql_between (ratio_operand r) (of_integer 500) (of_integer 15000)))
    (sql_gt (scraping_date r) "2020-03-05").

(** A row is selected when the clause is TRUE, not when it is UNKNOWN. *)
Definition selected (r : raw_record) : bool :=
  match where_clause r with
  | Some true => true
  | _ => false
  end.

(** The SELECT of [INSERT_DUCKDB_TABLE_QUERY] over [arrow_table]. *)
Definition select_rows (arrow_table : list raw_record) : list (list value) :=
  select_list <$> filter (fun r => selected r = true) arrow_table.

(** *** Appending to a table *)

(** One value against the column it lands in.  Text that is stored has
    to be well-formed UTF-8.  A value of the other type would be cast by
    the engine; the table this program creates never takes that path,
    which is reported as a conversion error. *)
Definition check_value (c : column) (v : value) : result value :=
  match v with
  | VNull => if c_not_null c then Raise (ConstraintException (c_name c)) else Ok v
  | VText s =>
      match c_type c with
      | TEXT => if Text.valid_utf8 s then Ok v else Raise InvalidInputException
      | DOUBLE => Raise ConversionException
      end
  | VDouble _ =>
      match c_type c with
      | DOUBLE => Ok v
      | TEXT => Raise ConversionException
      end
  end.

(** The select list is matched to the columns by position. *)
Fixpoint check_row (cs : list column) (vs : list value) : result (list value) :=
  match cs, vs with
  | [], [] => Ok []
  | c :: cs', v :: vs' =>
      v' ← check_value c v;
      vs'' ← check_row cs' vs';
      Ok (v' :: vs'')
  | _, _ => Raise BinderException
  end.

(** The statement is bound before it runs: a table with another number
    of columns than the select list has items is refused even when no
    row is selected.  The statement is atomic: every selected row is
    appended, or the table stays as it was and the statement raises. *)
Definition insert_into (t : table) (rows : list (list value)) : result table :=
  if Nat.eqb (length (t_columns t)) 7 then
    rows' ← rmap (check_row (t_columns t)) rows;
    Ok {| t_columns := t_columns t; t_rows := t_rows t ++ rows' |}
  else Raise BinderException.

Definition INSERT_DUCKDB_TABLE_QUERY (arrow_table : list raw_record)
    (db : gmap string table) : result (gmap string table) :=
  match db !! "properties" with
  | None => Raise CatalogException
  | Some t =>
      t' ← insert_into t (select_rows arrow_table);
      Ok (<["properties" := t']> db)
  end.

(** [SELECT COUNT( * ) FROM properties]. *)
Definition count_properties (db : gmap string table) : result Z :=
  match db !! "properties" with
  | None => Raise CatalogException
  | Some t => Ok (Z.of_nat (length (t_rows t)))
  end.

(** ** The Python function *)

Definition RAW_DATA_DIR : string := "data/input/scraping_data.jsonl".
Definition DUCKDB_FILE : string := "data/output/data.duckdb".

(** A call of [logging.info(msg, arg)]: the format and its argument.  A
    path is given from the directory of the module: [path_arg p] is
    [Path(__file__).parent.joinpath(p)]. *)
Inductive log_arg : Type :=
| path_arg (p : string)
| int_arg (n : Z).

Record log_record : Type := {
  msg : string;
  arg : log_arg
}.

(** What a run works on: the tables of the database file and the log. *)
Record world : Type := {
  store : gmap string table;
  log : list log_record
}.

(** A Python computation: it changes the world and returns or raises.
    What was done before an exception stays done. *)
Definition py (A : Type) : Type := world -> result A * world.

#[global] Instance py_ret : MRet py := fun A a w => (Ok a, w).

#[global] Instance py_bind : MBind py := fun A B k m w =>
  match m w with
  | (Ok a, w') => k a w'
  | (Raise e, w') => (Raise e, w')
  end.

Definition logging_info (m : string) (a : log_arg) : py unit := fun w =>
  (Ok tt, {| store := store w; log := log w ++ [{| msg := m; arg := a |}] |}).

(** A library call that touches no table. *)
Definition call {A : Type} (r : result A) : py A := fun w => (r, w).

(** [duckdb_conn.execute] of a statement that changes the store; a
    statement that raises changes nothing. *)
Definition execute (stmt : gmap string table -> result (gmap string table)) : py unit := fun w =>
  match stmt (store w) with
  | Ok db' => (Ok tt, {| store := db'; log := log w |})
  | Raise e => (Raise e, w)
  end.

(** [duckdb_conn.execute(...).fetchone()[0]] of a query. *)
Definition fetchone {A : Type} (query : gmap string table -> result A) : py A := fun w =>
  (query (store w), w).

Definition input_file_path : log_arg := path_arg RAW_DATA_DIR.

Definition parse_jsonl_and_write_to_duckdb (file : list line) : py unit :=
  logging_info "Reading data from file: %s" input_file_path;;
  pa_table ← call (read_json file);
  logging_info "Total rows read from JSONL file: %d" (int_arg (num_rows pa_table));;
  execute (fun db => Ok (CREATE_DUCKDB_TABLE_QUERY db));;
  row_count_before_insert ← fetchone count_properties;
  logging_info "Total rows currently in 'properties' table before insertion: %d"
               (int_arg row_count_before_insert);;
  execute (INSERT_DUCKDB_TABLE_QUERY pa_table);;
  row_count_after_insert ← fetchone count_properties;
  logging_info "Rows inserted: %d"
               (int_arg (row_count_after_insert - row_count_before_insert)).

(** A run from a given store, with an empty log. *)
Definition run (file : list line) (db : gmap string table) : result unit * world :=
  parse_jsonl_and_write_to_duckdb file {| store := db; log := [] |}.

(** One run after the other, each on the store the one before left,
    whether it returned or raised. *)
Definition runs (files : list (list line)) (db : gmap string table) : gmap string table :=
  foldl (fun db file => store (run file db).2) db files.

(** ** Vocabulary of the statements *)

(** The table a run works on once [CREATE_DUCKDB_TABLE_QUERY] is
    through: the one that was there, or a new empty one. *)
Definition current (db : gmap string table) : table :=
  default {| t_columns := properties_columns; t_rows := [] |} (db !! "properties").

(** The rows of [properties]; none when there is no such table. *)
Definition stored (db : gmap string table) : list (list value) :=
  t_rows (current db).

(** The table is the one this program creates: absent so far, or with
    the column list of [CREATE_DUCKDB_TABLE_QUERY]. *)
Definition expected (db : gmap string table) : Prop :=
  t_columns (current db) = properties_columns.





(** The schema rule in words: a field is violated by a member that is
    absent or null though the field is not nullable, or that is present
    with a value of another kind than the declared type; a line
    violates the schema when it is no object or violates a field. *)
Definition kind_matches (t : pa_type) (v : jvalue) : bool :=
  match t, v with
  | pa_string, JString _ => true
  | pa_float64, JNumber _ => true
  | _, _ => false
  end.

Definition field_violated (f : pa_field) (v : option jvalue) : bool :=
  match v with
  | None | Some JNull => negb (f_nullable f)
  | Some j => negb (kind_matches (f_type f) j)
  end.

Definition violates_schema (l : line) : bool :=
  match l with
  | Malformed => true
  | Object o =>
      field_violated id_field (j_id o)
      || field_violated raw_price_field (j_raw_price o)
      || field_violated living_area_field (j_living_area o)
      || field_violated property_type_field (j_property_type o)
      || field_violated municipality_field (j_municipality o)
      || field_violated scraping_date_field (j_scraping_date o)
  end.

(** The reading of the price that strips every whitespace character. *)
Definition price_strips_whitespace (o : json_object) : Prop :=
  forall r,
    read_json [Object o] = Ok [r] ->
    price r =
    (s ← raw_price r;
     TRY_CAST_DOUBLE (Text.without_whitespace (Text.text_before Text.euro s))).

(** The log lines of a run, in the order the function writes them. *)
Definition reading_line : log_record :=
  {| msg := "Reading data from file: %s"; arg := path_arg RAW_DATA_DIR |}.
Definition rows_read_line (n : Z) : log_record :=
  {| msg := "Total rows read from JSONL file: %d"; arg := int_arg n |}.
Definition before_line (n : Z) : log_record :=
  {| msg := "Total rows currently in 'properties' table before insertion: %d";
     arg := int_arg n |}.
Definition inserted_line (n : Z) : log_record :=
  {| msg := "Rows inserted: %d"; arg := int_arg n |}.

(** Some line of the log carries the number [n]. *)
Definition reports (lg : list log_record) (n : Z) : bool :=
  existsb (fun r => match arg r with
                    | int_arg k => Z.eqb k n
                    | path_arg _ => false
                    end) lg.

(** The reading of the log that has four counts in it: rows read, rows
    before, rows after, and the difference, which is the count of the
    selected rows. *)
Definition log_reports_four_counts (file : list line) (db : gmap string table) : Prop :=
  forall w batch before after,
    run file db = (Ok tt, w) ->
    read_json file = Ok batch ->
    count_properties (CREATE_DUCKDB_TABLE_QUERY db) = Ok before ->
    count_properties (store w) = Ok after ->
    reports (log w) (num_rows batch) = true
    /\ reports (log w) before = true
    /\ reports (log w) after = true
    /\ reports (log w) (after - before) = true
    /\ (after - before)%Z = Z.of_nat (length (filter (fun r => selected r = true) batch)).

(** ** Further vocabulary: keys, columns and stored text *)

(** No object of the file has the unexpected key, so the table read from
    it has no such column. *)
Definition no_price_key (file : list line) : Prop :=
  existsb names_price file = false.

Definition no_ratio_key (file : list line) : Prop :=
  existsb names_price_per_square_meter file = false.

(** The text of a row that the INSERT stores is well-formed UTF-8. *)
Definition valid_text (o : option string) : bool :=
  match o with
  | Some s => Text.valid_utf8 s
  | None => true
  end.

Definition valid_stored (r : raw_record) : bool :=
  valid_text (id r) && valid_text (scraping_date r)
  && valid_text (property_type r) && valid_text (municipality r).


(** ** The claims as they are worded, where the code departs from them *)



(** A record whose price does not cast is dropped and the run of the
    file that holds it alone returns. *)
Definition cast_failure_drops_row (o : json_object) (db : gmap string table) : Prop :=
  forall r,
    read_json [Object o] = Ok [r] ->
    price r = None ->
    selected r = false /\ (run [Object o] db).1 = Ok tt.


(** Once the file is read, a run raises for a null [municipality] only:
    with the NOT NULL constraint of that column. *)
Definition only_municipality_aborts (file : list line) (db : gmap string table) : Prop :=
  forall batch e,
    read_json file = Ok batch ->
    (run file db).1 = Raise e ->
    e = ConstraintException "municipality".

End Load.

(** ** A reference engine: exact decimal arithmetic

    The five operations on rationals in lowest terms, to evaluate the
    examples with.  It is no model of binary64: the cast reads plain
    decimal numerals only (a minus sign, digits, at most one point),
    where the cast of the database also passes over whitespace around
    the numeral and reads a plus sign or an exponent; a division by zero
    has no result here; and quotients and roundings are exact.  On the
    texts and numbers of the examples below the two agree. *)

Module Exact.

Definition digit (c : ascii) : option Z :=
  let n := (Z.of_nat (nat_of_ascii c) - 48)%Z in
  if ((0 <=? n) && (n <=? 9))%Z then Some n else None.

(** The longest run of digits at the head of [s]: its value after
    [acc], how many digits it has after [n], and what follows it. *)
Fixpoint read_digits (s : string) (acc : Z) (n : nat) : Z * nat * string :=
  match s with
  | EmptyString => (acc, n, s)
  | String c s' =>
      match digit c with
      | Some d => read_digits s' (10 * acc + d)%Z (S n)
      | None => (acc, n, s)
      end
  end.

(** An unsigned numeral: digits, with at most one point among them. *)
Definition unsigned (s : string) : option Q :=
  let '(i, ni, rest) := read_digits s 0%Z 0%nat in
  match rest with
  | EmptyString => if Nat.eqb ni 0 then None else Some (inject_Z i)
  | String "."%char f =>
      let '(fr, nf, rest') := read_digits f 0%Z 0%nat in
      match rest' with
      | EmptyString =>
          if Nat.eqb (ni + nf) 0 then None
          else Some (Qred (Qmake (i * 10 ^ Z.of_nat nf + fr) (Z.to_pos (10 ^ Z.of_nat nf))))
      | _ => None
      end
  | _ => None
  end.

Definition try_cast (s : string) : option Q :=
  match s with
  | String "-"%char s' => Qopp <$> unsigned s'
  | _ => unsigned s
  end.

Definition quotient (a b : Q) : option Q :=
  if Qeq_bool b 0 then None else Some (Qred (a / b)).

(** The nearest whole number, a tie going away from zero. *)
Definition nearest (q : Q) : Z :=
  let n := Qnum q in
  let d := Z.pos (Qden q) in
  if (0 <=? n)%Z then ((2 * n + d) / (2 * d))%Z
  else (- ((2 * - n + d) / (2 * d)))%Z.

Definition round (q : Q) (digits : Z) : Q :=
  let scale := inject_Z (10 ^ Z.abs digits) in
  if (0 <=? digits)%Z
  then Qred (inject_Z (nearest (q * scale)) / scale)
  else Qred (inject_Z (nearest (q / scale)) * scale).

#[global] Instance engine : Engine Q := {
  TRY_CAST_DOUBLE := try_cast;
  divide := quotient;
  ROUND := round;
  of_integer := inject_Z;
  le := Qle_bool
}.

End Exact.

(** ** Example inputs, on the reference engine *)

Module Examples.

Definition listing_on (date : string) : json_object (D:=Q) :=
  {| j_id := Some (JString "1");
     j_raw_price := Some (JString "530 000€/mo.");
     j_living_area := Some (JNumber 100%Q);
     j_property_type := Some (JString "apartment");
     j_municipality := Some (JString "Zug");
     j_scraping_date := Some (JString date);
     j_price := None;
     j_price_per_square_meter := None |}.

(** The listing of the examples, scraped on 2021-01-01. *)
Definition listing : json_object (D:=Q) := listing_on "2021-01-01".

(** The same listing with another [raw_price], [municipality], [id],
    [property_type] or [living_area]. *)
Definition priced (o : json_object (D:=Q)) (p : option jvalue) : json_object :=
  {| j_id := j_id o; j_raw_price := p; j_living_area := j_living_area o;
     j_property_type := j_property_type o; j_municipality := j_municipality o;
     j_scraping_date := j_scraping_date o;
     j_price := j_price o; j_price_per_square_meter := j_price_per_square_meter o |}.

Definition located (o : json_object (D:=Q)) (m : option jvalue) : json_object :=
  {| j_id := j_id o; j_raw_price := j_raw_price o; j_living_area := j_living_area o;
     j_property_type := j_property_type o; j_municipality := m;
     j_scraping_date := j_scraping_date o;
     j_price := j_price o; j_price_per_square_meter := j_price_per_square_meter o |}.

Definition identified (o : json_object (D:=Q)) (i : option jvalue) : json_object :=
  {| j_id := i; j_raw_price := j_raw_price o; j_living_area := j_living_area o;
     j_property_type := j_property_type o; j_municipality := j_municipality o;
     j_scraping_date := j_scraping_date o;
     j_price := j_price o; j_price_per_square_meter := j_price_per_square_meter o |}.


Definition measured (o : json_object (D:=Q)) (a : option jvalue) : json_object :=
  {| j_id := j_id o; j_raw_price := j_raw_price o; j_living_area := a;
     j_property_type := j_property_type o; j_municipality := j_municipality o;
     j_scraping_date := j_scraping_date o;
     j_price := j_price o; j_price_per_square_meter := j_price_per_square_meter o |}.

(** The same listing with a number under one of the two unexpected keys
    the query can name. *)
Definition with_price_key (o : json_object (D:=Q)) (p : Q) : json_object :=
  {| j_id := j_id o; j_raw_price := j_raw_price o; j_living_area := j_living_area o;
     j_property_type := j_property_type o; j_municipality := j_municipality o;
     j_scraping_date := j_scraping_date o;
     j_price := Some p; j_price_per_square_meter := j_price_per_square_meter o |}.

Definition with_ratio_key (o : json_object (D:=Q)) (q : Q) : json_object :=
  {| j_id := j_id o; j_raw_price := j_raw_price o; j_living_area := j_living_area o;
     j_property_type := j_property_type o; j_municipality := j_municipality o;
     j_scraping_date := j_scraping_date o;
     j_price := j_price o; j_price_per_square_meter := Some q |}.

Definition not_a_price : json_object := priced listing (Some (JString "not a price")).
Definition without_id : json_object := identified listing None.
Definition without_municipality : json_object := located listing (Some JNull).

(** The store with no table in it. *)
Definition no_table : gmap string (table (D:=Q)) := ∅.

(** The stored form of [listing]. *)
Definition listing_row : list (value (D:=Q)) :=
  [ VText "1"; VText "2021-01-01"; VText "apartment"; VText "Zug";
    VDouble 530000%Q; VDouble 100%Q; VDouble 5300%Q ].

(** The listing with a tab, not a space, inside the amount. *)
Definition tabbed : json_object :=
  priced listing (Some (JString ("530" ++ String "009"%char "000€/mo."))).

(** A file of four lines, two of which the filter selects, and the store
    a run of [listing] alone leaves: a table of one row. *)
Definition four_lines : list (line (D:=Q)) :=
  [ Object listing; Object listing;
    Object (listing_on "2019-01-01"); Object not_a_price ].

Definition one_row_stored : gmap string (table (D:=Q)) :=
  runs [[Object listing]] no_table.

(** A store with a table of another name beside [properties]. *)
Definition other_table : table (D:=Q) :=
  {| t_columns := [ {| c_name := "note"; c_type := TEXT; c_not_null := false |} ];
     t_rows := [[VText "kept"]] |}.

Definition two_tables : gmap string (table (D:=Q)) :=
  <["audit" := other_table]> one_row_stored.


(** The same row under another [raw_price]. *)
Definition record_priced (p : string) : raw_record (D:=Q) :=
  {| id := Some "1";
     raw_price := Some p;
     living_area := Some 100%Q;
     property_type := Some "apartment";
     municipality := Some "Zug";
     scraping_date := Some "2021-01-01";
     column_price := None;
     column_price_per_square_meter := None |}.

(** A file whose second line the filter selects though it has no
    [municipality]. *)
Definition unlocated_file : list (line (D:=Q)) :=
  [ Object listing; Object without_municipality ].



Definition unpriced_with_price : json_object :=
  with_price_key not_a_price 530000%Q.

Definition arealess_with_ratio : json_object :=
  with_ratio_key (measured listing None) 1000%Q.

(** The listing in Zürich, its municipality written in Latin-1: the
    byte 252 is no UTF-8. *)
Definition latin1_municipality : json_object :=
  located listing (Some (JString ("Z" ++ String "252"%char "rich"))).



End Examples.

(** * Properties *)

(** ** The text functions do what their names say *)

Module TextFacts.
Import Text.

Lemma append_cons (x : ascii) (a b : string) : String x a ++ b = String x (a ++ b).
Proof. reflexivity. Qed.

Lemma append_empty_r (a : string) : a ++ "" = a.
Proof.
  induction a as [|x a IH]; [reflexivity|].
  rewrite append_cons. now f_equal.
Qed.

Lemma append_assoc (a b c : string) : (a ++ b) ++ c = a ++ (b ++ c).
Proof.
  induction a as [|x a IH]; [reflexivity|].
  rewrite !append_cons. now f_equal.
Qed.

Lemma split_from_head (sep : string) (s cur : string) :
  head (split_from sep 0 cur s) = Some (cur ++ text_before sep s).
Proof.
  revert cur.
  induction s as [|c s IH]; intros cur.
  - cbn [split_from text_before head]. now rewrite append_empty_r.
  - cbn [split_from text_before].
    destruct (String.prefix sep (String c s)) eqn:Hp.
    + cbn [head]. now rewrite append_empty_r.
    + rewrite IH. f_equal. now rewrite append_assoc.
Qed.

(** [SPLIT_PART(s, sep, 1)] is the text before the first [sep]. *)
Lemma SPLIT_PART_first (s sep : string) :
  sep <> "" -> SPLIT_PART s sep 1 = text_before sep s.
Proof.
  intros Hsep. unfold SPLIT_PART, string_split.
  destruct sep as [|a sep]; [congruence|].
  pose proof (split_from_head (String a sep) s "") as Hh.
  destruct (split_from (String a sep) 0 "" s) as [|x l]; simpl in *; [discriminate|].
  now inversion Hh.
Qed.

Lemma prefix_empty (s : string) : String.prefix "" s = true.
Proof. now destruct s. Qed.

Lemma prefix_single (a c : ascii) (s : string) :
  String.prefix (String a "") (String c s) = Ascii.eqb c a.
Proof.
  cbn [String.prefix].
  destruct (ascii_dec a c) as [->|Hne].
  - now rewrite prefix_empty, Ascii.eqb_refl.
  - symmetry. apply Ascii.eqb_neq. congruence.
Qed.

(** [REPLACE(s, ' ', '')] is [s] without its spaces. *)
Lemma REPLACE_spaces (s : string) : REPLACE s " " "" = without_spaces s.
Proof.
  unfold REPLACE.
  induction s as [|c s IH]; [reflexivity|].
  cbn [replace_from without_spaces].
  rewrite prefix_single.
  destruct (Ascii.eqb c " "); [exact IH | now f_equal].
Qed.

End TextFacts.

(** ** Results of list checks *)

Close Scope string_scope.

Section Results.

Context {A B : Type} (f : A -> result B).

Lemma rmap_app (l1 l2 : list A) :
  rmap f (l1 ++ l2) =
  rbind (rmap f l1) (fun ys1 => rbind (rmap f l2) (fun ys2 => Ok (ys1 ++ ys2))).
Proof.
  induction l1 as [|x l1 IH]; cbn [rmap app rbind].
  - now destruct (rmap f l2).
  - destruct (f x) as [y|e]; cbn [rbind]; [|reflexivity].
    rewrite IH. destruct (rmap f l1) as [ys1|e]; cbn [rbind]; [|reflexivity].
    now destruct (rmap f l2).
Qed.

(** A check that fails on one element fails on the list. *)
Lemma rmap_raise (l : list A) (x : A) (e : exn) :
  x ∈ l -> f x = Raise e -> exists e', rmap f l = Raise e'.
Proof.
  intros Hin Hx. induction Hin as [x l|x y l Hin IH]; cbn [rmap].
  - rewrite Hx. now exists e.
  - destruct (f y) as [b|e1]; cbn [rbind]; [|now exists e1].
    destruct (IH Hx) as [e' ->]. now exists e'.
Qed.

(** Every element of a checked list is the check of an element of the
    list. *)
Lemma rmap_elem (l : list A) (l' : list B) (y : B) :
  rmap f l = Ok l' -> y ∈ l' -> exists x, x ∈ l /\ f x = Ok y.
Proof.
  revert l'. induction l as [|x l IH]; intros l'; cbn [rmap].
  - intros [= <-] Hy. now apply elem_of_nil in Hy.
  - destruct (f x) as [b|e] eqn:Hx; cbn [rbind]; [|discriminate].
    destruct (rmap f l) as [ys|e]; cbn [rbind]; [|discriminate].
    intros [= <-] Hy. apply elem_of_cons in Hy as [->|Hy].
    + exists x. split; [left | exact Hx].
    + destruct (IH ys eq_refl Hy) as (x' & Hin & Hx').
      exists x'. split; [now right | exact Hx'].
Qed.

(** A failure of the list is the failure of one of its elements. *)
Lemma rmap_raise_inv (l : list A) (e : exn) :
  rmap f l = Raise e -> exists x, x ∈ l /\ f x = Raise e.
Proof.
  induction l as [|x l IH]; cbn [rmap]; [discriminate|].
  destruct (f x) as [y|e1] eqn:Hx; cbn [rbind].
  - destruct (rmap f l) as [ys|e2]; cbn [rbind]; [discriminate|].
    intros [= <-]. destruct (IH eq_refl) as (x' & Hin & Hx').
    exists x'. split; [now right | exact Hx'].
  - intros [= <-]. exists x. split; [left | exact Hx].
Qed.

End Results.

(** A check that hands back what it was given hands back the list. *)
Lemma rmap_same {A : Type} (f : A -> result A) (l l' : list A) :
  (forall x y, f x = Ok y -> y = x) -> rmap f l = Ok l' -> l' = l.
Proof.
  intros Hf. revert l'. induction l as [|x l IH]; intros l'; cbn [rmap].
  - now intros [= <-].
  - destruct (f x) as [y|e] eqn:Hx; cbn [rbind]; [|discriminate].
    destruct (rmap f l) as [ys|e]; cbn [rbind]; [|discriminate].
    intros [= <-]. f_equal; [now apply Hf | now apply IH].
Qed.

(** A check that accepts every element accepts the list. *)
Lemma rmap_all_ok {A : Type} (f : A -> result A) (l : list A) :
  (forall x, x ∈ l -> f x = Ok x) -> rmap f l = Ok l.
Proof.
  induction l as [|x l IH]; intros Hf; cbn [rmap]; [reflexivity|].
  rewrite (Hf x) by left. cbn [rbind].
  rewrite IH; [reflexivity|]. intros y Hy. apply Hf. now right.
Qed.

(** ** The statements and the run *)

Section LoadFacts.

Context {D : Type} {engine : Engine D}.

Implicit Types (db : gmap string (table (D:=D))) (file : list (line (D:=D))).
Implicit Types (t : table (D:=D)) (rows : list (list (value (D:=D)))).
Implicit Types (v : value (D:=D)) (vs : list (value (D:=D))).
Implicit Types (r : raw_record (D:=D)) (batch : list (raw_record (D:=D))).
Implicit Types (l : line (D:=D)).

(** *** The table after CREATE *)

Lemma create_lookup db :
  CREATE_DUCKDB_TABLE_QUERY db !! "properties" = Some (current db).
Proof.
  unfold CREATE_DUCKDB_TABLE_QUERY, current.
  destruct (db !! "properties") as [t|] eqn:Ht; cbn [default].
  - exact Ht.
  - apply lookup_insert_eq.
Qed.

Lemma create_present db t :
  db !! "properties" = Some t -> CREATE_DUCKDB_TABLE_QUERY db = db.
Proof. intros Ht. unfold CREATE_DUCKDB_TABLE_QUERY. now rewrite Ht. Qed.

Lemma create_idempotent db :
  CREATE_DUCKDB_TABLE_QUERY (CREATE_DUCKDB_TABLE_QUERY db) = CREATE_DUCKDB_TABLE_QUERY db.
Proof. apply (create_present _ _ (create_lookup db)). Qed.

Lemma current_create db : current (CREATE_DUCKDB_TABLE_QUERY db) = current db.
Proof. unfold current at 1. now rewrite create_lookup. Qed.

Lemma current_insert db t : current (<["properties" := t]> db) = t.
Proof. unfold current. now rewrite lookup_insert_eq. Qed.

(** *** Appending *)

Lemma check_value_same c v v' : check_value c v = Ok v' -> v' = v.
Proof.
  unfold check_value.
  destruct v as [|s|d], (c_not_null c), (c_type c);
    try destruct (Text.valid_utf8 s);
    intros [= <-] || discriminate; reflexivity.
Qed.

Lemma check_row_same cs vs vs' : check_row cs vs = Ok vs' -> vs' = vs.
Proof.
  revert vs vs'. induction cs as [|c cs IH]; intros [|v vs] vs'; cbn [check_row];
    try discriminate.
  - now intros [= <-].
  - unfold mbind, result_bind.
    destruct (check_value c v) as [v1|e] eqn:Hv; cbn [rbind]; [|discriminate].
    destruct (check_row cs vs) as [vs1|e] eqn:Hvs; cbn [rbind]; [|discriminate].
    intros [= <-]. f_equal; [now apply check_value_same in Hv | now apply IH].
Qed.

(** A statement that returns has appended exactly the selected rows. *)
Lemma insert_into_ok t rows t' :
  insert_into t rows = Ok t' ->
  t' = {| t_columns := t_columns t; t_rows := t_rows t ++ rows |}.
Proof.
  unfold insert_into, mbind, result_bind.
  destruct (Nat.eqb (length (t_columns t)) 7); [|discriminate].
  destruct (rmap (check_row (t_columns t)) rows) as [rows'|e] eqn:Hr; cbn [rbind];
    [|discriminate].
  intros [= <-]. f_equal. f_equal.
  apply (rmap_same _ _ _ (check_row_same (t_columns t)) Hr).
Qed.

(** Whether the statement returns depends on the columns and the rows
    to append, not on the rows already there. *)
Lemma insert_into_columns t1 t2 rows :
  t_columns t1 = t_columns t2 ->
  match insert_into t1 rows, insert_into t2 rows with
  | Ok _, Ok _ => True
  | Raise e1, Raise e2 => e1 = e2
  | _, _ => False
  end.
Proof.
  intros Hc. unfold insert_into, mbind, result_bind. rewrite Hc.
  destruct (Nat.eqb (length (t_columns t2)) 7); [|reflexivity].
  now destruct (rmap (check_row (t_columns t2)) rows).
Qed.

(** The statement on no rows returns on a table of seven columns. *)
Lemma insert_into_nil t :
  length (t_columns t) = 7 -> insert_into t [] = Ok t.
Proof.
  intros Hlen. unfold insert_into. rewrite Hlen. cbn.
  rewrite app_nil_r. now destruct t.
Qed.

(** *** The run, by the outcome of the reader *)

Lemma run_read_raise file db e :
  read_json file = Raise e ->
  run file db = (Raise e, {| store := db; log := [reading_line] |}).
Proof.
  intros Hr. unfold run, parse_jsonl_and_write_to_duckdb.
  unfold mbind, py_bind, logging_info, call. cbn [store log].
  now rewrite Hr.
Qed.

Lemma run_read_ok file db batch :
  read_json file = Ok batch ->
  run file db =
  match insert_into (current db) (select_rows batch) with
  | Ok t' =>
      (Ok tt,
       {| store := <["properties" := t']> (CREATE_DUCKDB_TABLE_QUERY db);
          log := [ reading_line;
                   rows_read_line (num_rows batch);
                   before_line (Z.of_nat (length (stored db)));
                   inserted_line (Z.of_nat (length (t_rows t'))
                                  - Z.of_nat (length (stored db))) ] |})
  | Raise e =>
      (Raise e,
       {| store := CREATE_DUCKDB_TABLE_QUERY db;
          log := [ reading_line;
                   rows_read_line (num_rows batch);
                   before_line (Z.of_nat (length (stored db))) ] |})
  end.
Proof.
  intros Hr. unfold run, parse_jsonl_and_write_to_duckdb.
  unfold mbind at 1 2 3 4 5 6 7 8, py_bind, logging_info, call, execute, fetchone.
  cbn [store log]. rewrite Hr.
  unfold count_properties, INSERT_DUCKDB_TABLE_QUERY.
  rewrite create_lookup.
  unfold mbind, result_bind.
  destruct (insert_into (current db) (select_rows batch)) as [t'|e]; cbn [rbind].
  - cbn [store log]. rewrite lookup_insert_eq. reflexivity.
  - reflexivity.
Qed.

(** *** What a run leaves in the table *)

Lemma run_outcome file db :
  match (run file db).1 with
  | Ok _ =>
      exists batch,
        read_json file = Ok batch
        /\ stored (store (run file db).2) = stored db ++ select_rows batch
  | Raise _ => stored (store (run file db).2) = stored db
  end.
Proof.
  destruct (read_json file) as [batch|e] eqn:Hr.
  - rewrite (run_read_ok _ _ _ Hr).
    destruct (insert_into (current db) (select_rows batch)) as [t'|e] eqn:Hi; cbn [fst snd store].
    + exists batch. split; [reflexivity|].
      unfold stored at 1. rewrite current_insert.
      now rewrite (insert_into_ok _ _ _ Hi).
    + unfold stored. now rewrite current_create.
  - now rewrite (run_read_raise _ _ _ Hr).
Qed.


(** The rows the INSERT accepted were accepted one by one. *)
Lemma insert_into_checked t rows t' row :
  insert_into t rows = Ok t' -> row ∈ rows -> check_row (t_columns t) row = Ok row.
Proof.
  unfold insert_into, mbind, result_bind.
  destruct (Nat.eqb (length (t_columns t)) 7); [|discriminate].
  destruct (rmap (check_row (t_columns t)) rows) as [rows'|e] eqn:Hr; cbn [rbind];
    [|discriminate].
  intros _ Hrow.
  pose proof (rmap_same _ _ _ (check_row_same (t_columns t)) Hr) as ->.
  destruct (rmap_elem _ _ _ _ Hr Hrow) as (row' & _ & Hrow').
  pose proof (check_row_same _ _ _ Hrow') as Heq. now rewrite Heq in Hrow' |- *.
Qed.

(** Rows are only ever added at the end: each is the select list of a
    selected row of the table read from the file, and was accepted under
    the columns of the table. *)
Lemma run_appends file db :
  exists rows,
    stored (store (run file db).2) = stored db ++ rows
    /\ forall row, row ∈ rows ->
         exists batch r,
           read_json file = Ok batch /\ r ∈ batch /\ selected r = true
           /\ row = select_list r
           /\ check_row (t_columns (current db)) row = Ok row.
Proof.
  destruct (read_json file) as [batch|e] eqn:Hr.
  - rewrite (run_read_ok _ _ _ Hr).
    destruct (insert_into (current db) (select_rows batch)) as [t'|e] eqn:Hi; cbn [snd store].
    + exists (select_rows batch). unfold stored at 1. rewrite current_insert.
      rewrite (insert_into_ok _ _ _ Hi). split; [reflexivity|].
      intros row Hrow. pose proof (insert_into_checked _ _ _ _ Hi Hrow) as Hchk.
      unfold select_rows in Hrow.
      apply list_elem_of_fmap in Hrow as (r & -> & Hin).
      apply list_elem_of_filter in Hin as [Hsel Hin].
      exists batch, r. now repeat split.
    + exists []. unfold stored. rewrite current_create, app_nil_r.
      split; [reflexivity|]. intros row Hrow. now apply elem_of_nil in Hrow.
  - rewrite (run_read_raise _ _ _ Hr). exists []. rewrite app_nil_r.
    split; [reflexivity|]. intros row Hrow. now apply elem_of_nil in Hrow.
Qed.


(** *** The selected rows *)

Lemma sql_and_true (a b : option bool) :
  sql_and a b = Some true <-> a = Some true /\ b = Some true.
Proof.
  destruct a as [[]|], b as [[]|]; cbn [sql_and]; split;
    (intros [? ?] || intros ?); (discriminate || auto).
Qed.

Lemma selected_where r : selected r = true <-> where_clause r = Some true.
Proof.
  unfold selected. destruct (where_clause r) as [[]|]; split; (discriminate || auto).
Qed.

(** Without a column of the name in the table, the name is the item of
    the select list. *)
Lemma price_operand_item r : column_price r = None -> price_operand r = price r.
Proof. intros Hc. unfold price_operand. now rewrite Hc. Qed.

Lemma ratio_operand_item r :
  column_price_per_square_meter r = None -> ratio_operand r = price_per_square_meter r.
Proof. intros Hc. unfold ratio_operand. now rewrite Hc. Qed.

Lemma selected_inv r :
  selected r = true ->
  exists pt d s,
    property_type r = Some pt /\ (pt = "apartment" \/ pt = "house")
    /\ ratio_operand r = Some d
    /\ le (of_integer 500) d = true /\ le d (of_integer 15000) = true
    /\ scraping_date r = Some s /\ String.ltb "2020-03-05" s = true.
Proof.
  intros Hsel. apply selected_where in Hsel. unfold where_clause in Hsel.
  apply sql_and_true in Hsel as [Hsel Hdate].
  apply sql_and_true in Hsel as [Htype Hrange].
  unfold sql_in in Htype. unfold sql_between in Hrange. unfold sql_gt in Hdate.
  destruct (property_type r) as [pt|]; cbn [mbind option_bind] in Htype; [|discriminate].
  destruct (ratio_operand r) as [d|]; cbn [mbind option_bind] in Hrange;
    [|discriminate].
  destruct (scraping_date r) as [s|]; cbn [mbind option_bind] in Hdate; [|discriminate].
  injection Htype as Htype. injection Hrange as Hrange. injection Hdate as Hdate.
  apply bool_decide_eq_true in Htype. apply andb_true_iff in Hrange as [Hlo Hhi].
  exists pt, d, s. repeat split; try assumption.
  apply elem_of_cons in Htype as [->|Htype]; [now left|].
  apply elem_of_cons in Htype as [->|Htype]; [now right|].
  now apply elem_of_nil in Htype.
Qed.




(** *** The reader against the schema rule *)

Lemma convert_violated (f : pa_field) (j : option (jvalue (D:=D))) :
  field_violated f j = true -> convert f j = Raise ArrowInvalid.
Proof.
  unfold field_violated, convert, convert_value, kind_matches, mbind, result_bind.
  destruct f as [n [] []]; cbn [f_type f_nullable negb];
    destruct j as [[]|]; cbn [rbind]; intros; (discriminate || reflexivity).
Qed.

Lemma convert_conforming (f : pa_field) (j : option (jvalue (D:=D))) :
  field_violated f j = false -> exists c, convert f j = Ok c.
Proof.
  unfold field_violated, convert, convert_value, kind_matches, mbind, result_bind.
  destruct f as [n [] []]; cbn [f_type f_nullable negb];
    destruct j as [[]|]; cbn [rbind]; intros; (discriminate || eauto).
Qed.

(** The reader refuses exactly the lines that violate the schema. *)
Lemma read_line_violates (hp hr : bool) l :
  violates_schema l = true -> read_line_with hp hr l = Raise ArrowInvalid.
Proof.
  destruct l as [|o]; [reflexivity|]. cbn [violates_schema read_line_with].
  unfold mbind, result_bind.
  destruct (field_violated id_field (j_id o)) eqn:H1;
    [now rewrite (convert_violated _ _ H1)|].
  destruct (convert_conforming _ _ H1) as [c1 ->]; cbn [rbind].
  destruct (field_violated raw_price_field (j_raw_price o)) eqn:H2;
    [now rewrite (convert_violated _ _ H2)|].
  destruct (convert_conforming _ _ H2) as [c2 ->]; cbn [rbind].
  destruct (field_violated living_area_field (j_living_area o)) eqn:H3;
    [now rewrite (convert_violated _ _ H3)|].
  destruct (convert_conforming _ _ H3) as [c3 ->]; cbn [rbind].
  destruct (field_violated property_type_field (j_property_type o)) eqn:H4;
    [now rewrite (convert_violated _ _ H4)|].
  destruct (convert_conforming _ _ H4) as [c4 ->]; cbn [rbind].
  destruct (field_violated municipality_field (j_municipality o)) eqn:H5;
    [now rewrite (convert_violated _ _ H5)|].
  destruct (convert_conforming _ _ H5) as [c5 ->]; cbn [rbind].
  destruct (field_violated scraping_date_field (j_scraping_date o)) eqn:H6;
    [now rewrite (convert_violated _ _ H6)|].
  discriminate.
Qed.

Lemma read_line_conforming (hp hr : bool) l :
  violates_schema l = false -> exists r, read_line_with hp hr l = Ok r.
Proof.
  destruct l as [|o]; [discriminate|]. cbn [violates_schema read_line_with].
  intros Hv. repeat (apply orb_false_iff in Hv as [Hv ?]).
  unfold mbind, result_bind.
  destruct (convert_conforming id_field (j_id o)) as [c1 ->]; [assumption|].
  destruct (convert_conforming raw_price_field (j_raw_price o)) as [c2 ->]; [assumption|].
  destruct (convert_conforming living_area_field (j_living_area o)) as [c3 ->]; [assumption|].
  destruct (convert_conforming property_type_field (j_property_type o)) as [c4 ->];
    [assumption|].
  destruct (convert_conforming municipality_field (j_municipality o)) as [c5 ->];
    [assumption|].
  destruct (convert_conforming scraping_date_field (j_scraping_date o)) as [c6 ->];
    [assumption|].
  cbn [rbind]. eauto.
Qed.

Lemma read_line_exn (hp hr : bool) l e : read_line_with hp hr l = Raise e -> e = ArrowInvalid.
Proof.
  destruct (violates_schema l) eqn:Hv.
  - rewrite (read_line_violates _ _ _ Hv). now intros [= <-].
  - destruct (read_line_conforming hp hr _ Hv) as [r ->]. discriminate.
Qed.

(** A file with an entry is read entry by entry, into the columns its
    keys make. *)
Lemma read_json_entries file :
  file <> [] ->
  read_json file =
  rmap (read_line_with (existsb names_price file)
                  (existsb names_price_per_square_meter file)) file.
Proof. now destruct file. Qed.

Lemma read_json_exn file e : read_json file = Raise e -> e = ArrowInvalid.
Proof.
  destruct file as [|l file]; [now intros [= <-]|].
  rewrite read_json_entries by discriminate.
  intros Hr. apply rmap_raise_inv in Hr as (l' & _ & Hl).
  now apply read_line_exn in Hl.
Qed.

(** One violating line makes the reader refuse the file. *)
Lemma read_json_violates file l :
  l ∈ file -> violates_schema l = true -> read_json file = Raise ArrowInvalid.
Proof.
  intros Hin Hv.
  assert (file <> []) as Hne by (intros ->; now apply elem_of_nil in Hin).
  pose proof (read_json_exn file) as Hexn.
  rewrite (read_json_entries file Hne) in Hexn |- *.
  destruct (rmap_raise _ file l ArrowInvalid Hin
              (read_line_violates (existsb names_price file)
                 (existsb names_price_per_square_meter file) _ Hv)) as [e He].
  rewrite He. f_equal. now apply Hexn.
Qed.

(** A row the reader returns has its [id], and a cell in an unexpected
    column exactly where an object of the file has the key. *)
Lemma read_line_id (hp hr : bool) l r :
  read_line_with hp hr l = Ok r ->
  (exists s, id r = Some s)
  /\ (hp = false -> column_price r = None)
  /\ (hr = false -> column_price_per_square_meter r = None).
Proof.
  destruct l as [|o]; [discriminate|]. cbn [read_line_with].
  unfold mbind, result_bind.
  destruct (convert id_field (j_id o)) as [c1|] eqn:H1; cbn [rbind]; [|discriminate].
  destruct (convert raw_price_field (j_raw_price o)); cbn [rbind]; [|discriminate].
  destruct (convert living_area_field (j_living_area o)); cbn [rbind]; [|discriminate].
  destruct (convert property_type_field (j_property_type o)); cbn [rbind]; [|discriminate].
  destruct (convert municipality_field (j_municipality o)); cbn [rbind]; [|discriminate].
  destruct (convert scraping_date_field (j_scraping_date o)); cbn [rbind]; [|discriminate].
  intros [= <-]. cbn [id column_price column_price_per_square_meter].
  split; [|split; intros ->; reflexivity].
  unfold convert, mbind, result_bind in H1.
  destruct (match j_id o with Some j => convert_value (f_type id_field) j | None => Ok None end)
    as [[s|]|]; cbn [rbind id_field f_nullable] in H1; try discriminate.
  injection H1 as <-. now exists s.
Qed.

Lemma read_json_id file batch r :
  read_json file = Ok batch -> r ∈ batch ->
  (exists s, id r = Some s)
  /\ (no_price_key file -> column_price r = None)
  /\ (no_ratio_key file -> column_price_per_square_meter r = None).
Proof.
  destruct file as [|l0 file]; [discriminate|].
  rewrite read_json_entries by discriminate.
  intros Hr Hin. destruct (rmap_elem _ _ _ _ Hr Hin) as (l & _ & Hl).
  now apply read_line_id in Hl.
Qed.

(** *** A row the filter excludes leaves no trace in the table *)

Lemma select_rows_app batch1 batch2 :
  select_rows (batch1 ++ batch2) = select_rows batch1 ++ select_rows batch2.
Proof. unfold select_rows. now rewrite filter_app, fmap_app. Qed.

Lemma select_rows_excluded r batch :
  selected r = false -> select_rows (r :: batch) = select_rows batch.
Proof.
  intros Hsel. unfold select_rows. rewrite filter_cons.
  destruct (decide (selected r = true)) as [Ht|_]; [congruence | reflexivity].
Qed.

Lemma select_rows_length batch :
  length (select_rows batch) = length (filter (fun r => selected r = true) batch).
Proof. unfold select_rows. apply length_fmap. Qed.

(** A line without the two keys in a file, and out of it: while the rest
    has an entry, the columns the keys make are the same, and when the
    filter excludes the row of the line, the run returns or raises alike
    and leaves the same tables. *)
Lemma excluded_transparent (pre post : list line) l r db :
  pre ++ post <> [] ->
  names_price l = false ->
  names_price_per_square_meter l = false ->
  read_line_with (existsb names_price (pre ++ post))
            (existsb names_price_per_square_meter (pre ++ post)) l = Ok r ->
  selected r = false ->
  (run (pre ++ l :: post) db).1 = (run (pre ++ post) db).1
  /\ store (run (pre ++ l :: post) db).2 = store (run (pre ++ post) db).2.
Proof.
  intros Hne Hp Hq Hl Hsel.
  assert (pre ++ l :: post <> []) as Hne' by (now destruct pre).
  pose proof (read_json_entries _ Hne') as H1.
  pose proof (read_json_entries _ Hne) as H2.
  assert (existsb names_price (pre ++ l :: post) = existsb names_price (pre ++ post)) as Ep
    by (rewrite !existsb_app; cbn [existsb]; now rewrite Hp).
  assert (existsb names_price_per_square_meter (pre ++ l :: post)
          = existsb names_price_per_square_meter (pre ++ post)) as Eq
    by (rewrite !existsb_app; cbn [existsb]; now rewrite Hq).
  rewrite Ep, Eq in H1.
  rewrite rmap_app in H1, H2. cbn [rmap] in H1. rewrite Hl in H1. cbn [rbind] in H1.
  destruct (rmap _ pre) as [b1|e1]; cbn [rbind] in H1, H2.
  - destruct (rmap _ post) as [b2|e2]; cbn [rbind] in H1, H2.
    + rewrite (run_read_ok _ _ _ H1), (run_read_ok _ _ _ H2).
      rewrite !select_rows_app, (select_rows_excluded _ _ Hsel).
      now destruct (insert_into (current db) (select_rows b1 ++ select_rows b2)).
    + now rewrite (run_read_raise _ _ _ H1), (run_read_raise _ _ _ H2).
  - now rewrite (run_read_raise _ _ _ H1), (run_read_raise _ _ _ H2).
Qed.

(** A file of one line without the two keys, whose row the filter
    excludes: on a table of seven columns the run returns and the table
    keeps its rows. *)
Lemma excluded_alone l r db :
  names_price l = false ->
  names_price_per_square_meter l = false ->
  read_line l = Ok r ->
  selected r = false ->
  length (t_columns (current db)) = 7 ->
  read_json [l] = Ok [r]
  /\ (run [l] db).1 = Ok tt
  /\ stored (store (run [l] db).2) = stored db.
Proof.
  intros Hp Hq Hl Hsel Hlen.
  assert (read_json [l] = Ok [r]) as Hr.
  { unfold read_line in Hl. cbn [read_json existsb rmap]. rewrite Hp, Hq. cbn [orb].
    now rewrite Hl. }
  split; [exact Hr|].
  rewrite (run_read_ok _ _ _ Hr), (select_rows_excluded _ _ Hsel).
  change (select_rows []) with (@nil (list (value (D:=D)))).
  rewrite (insert_into_nil _ Hlen). cbn [fst snd store].
  split; [reflexivity|]. unfold stored. now rewrite current_insert.
Qed.

(** *** The NOT NULL columns *)

Lemma check_row_selected r i :
  column_price r = None ->
  column_price_per_square_meter r = None ->
  selected r = true ->
  id r = Some i ->
  valid_stored r = true ->
  check_row properties_columns (select_list r) =
  match municipality r with
  | Some _ => Ok (select_list r)
  | None => Raise (ConstraintException "municipality")
  end.
Proof.
  intros Hcp Hcr Hsel Hid Hvalid.
  destruct (selected_inv r Hsel) as (pt & d & s & Hpt & _ & Hd & _ & _ & Hs & _).
  rewrite (ratio_operand_item r Hcr) in Hd.
  unfold valid_stored in Hvalid. rewrite Hid, Hpt, Hs in Hvalid.
  cbn [valid_text] in Hvalid.
  apply andb_true_iff in Hvalid as [Hvalid Hvm].
  apply andb_true_iff in Hvalid as [Hvalid Hvt].
  apply andb_true_iff in Hvalid as [Hvi Hvs].
  unfold select_list. rewrite Hid, Hpt, Hs, Hd.
  unfold price_per_square_meter in Hd. rewrite (price_operand_item r Hcp) in Hd.
  destruct (price r) as [p|]; cbn [mbind option_bind] in Hd; [|discriminate].
  destruct (living_area r) as [a|]; cbn [mbind option_bind] in Hd; [|discriminate].
  unfold properties_columns. cbn [check_row text double check_value c_type c_not_null c_name].
  rewrite Hvi, Hvs, Hvt. unfold mbind, result_bind. cbn [rbind].
  destruct (municipality r) as [m|]; cbn [valid_text] in Hvm; [|reflexivity].
  cbn [text check_value c_type]. now rewrite Hvm.
Qed.

(** On the table of this program, for a table read without the two
    unexpected columns and text that is well-formed, an INSERT can only
    raise for a selected row without [municipality], and does raise for
    one. *)
Lemma insert_into_outcome t batch :
  t_columns t = properties_columns ->
  (forall r, r ∈ batch ->
     (exists s, id r = Some s)
     /\ column_price r = None /\ column_price_per_square_meter r = None) ->
  (forall r, r ∈ batch -> selected r = true -> valid_stored r = true) ->
  insert_into t (select_rows batch) =
  if decide (Exists (fun r => selected r = true /\ municipality r = None) batch)
  then Raise (ConstraintException "municipality")
  else Ok {| t_columns := t_columns t; t_rows := t_rows t ++ select_rows batch |}.
Proof.
  intros Hc Hid Hvalid.
  assert (forall r, r ∈ batch -> selected r = true ->
            check_row properties_columns (select_list r) =
            match municipality r with
            | Some _ => Ok (select_list r)
            | None => Raise (ConstraintException "municipality")
            end) as Hchk.
  { intros r Hin Hsel. destruct (Hid r Hin) as ([i Hi] & Hcp & Hcr).
    apply (check_row_selected r i Hcp Hcr Hsel Hi). now apply Hvalid. }
  unfold insert_into, mbind, result_bind. rewrite Hc.
  change (Nat.eqb (length properties_columns) 7) with true. cbv iota.
  destruct (decide _) as [Hex|Hall].
  - apply Exists_exists in Hex as (r & Hin & Hsel & Hm).
    assert (select_list r ∈ select_rows batch) as Hrow.
    { unfold select_rows. apply list_elem_of_fmap. exists r. split; [reflexivity|].
      apply list_elem_of_filter. split; [exact Hsel | exact Hin]. }
    pose proof (Hchk r Hin Hsel) as Hr. rewrite Hm in Hr.
    destruct (rmap_raise _ _ _ _ Hrow Hr) as [e He]. rewrite He. cbn [rbind].
    apply rmap_raise_inv in He as (row & Hin' & Hrow').
    unfold select_rows in Hin'. apply list_elem_of_fmap in Hin' as (r' & -> & Hr').
    apply list_elem_of_filter in Hr' as [Hsel' Hin'].
    rewrite (Hchk r' Hin' Hsel') in Hrow'.
    destruct (municipality r'); [discriminate|].
    now injection Hrow' as <-.
  - rewrite rmap_all_ok; [reflexivity|].
    intros row Hrow. unfold select_rows in Hrow.
    apply list_elem_of_fmap in Hrow as (r & -> & Hr).
    apply list_elem_of_filter in Hr as [Hsel Hin].
    rewrite (Hchk r Hin Hsel).
    destruct (municipality r) eqn:Hm; [reflexivity|].
    exfalso. apply Hall. apply Exists_exists. exists r. now repeat split.
Qed.

(** *** Rows with a NULL the filter looks at *)

Lemma price_in_words r :
  price r =
  (s ← raw_price r;
   TRY_CAST_DOUBLE (Text.without_spaces (Text.text_before Text.euro s))).
Proof.
  unfold price. destruct (raw_price r) as [s|]; cbn [mbind option_bind]; [|reflexivity].
  rewrite TextFacts.SPLIT_PART_first by discriminate.
  now rewrite TextFacts.REPLACE_spaces.
Qed.

Lemma price_null_ratio_null r :
  column_price r = None -> price r = None -> price_per_square_meter r = None.
Proof.
  intros Hc Hp. unfold price_per_square_meter.
  now rewrite (price_operand_item r Hc), Hp.
Qed.

Lemma living_area_null_ratio_null r :
  living_area r = None -> price_per_square_meter r = None.
Proof.
  intros Ha. unfold price_per_square_meter. rewrite Ha.
  now destruct (price_operand r).
Qed.

Lemma ratio_null_excluded r :
  column_price_per_square_meter r = None ->
  price_per_square_meter r = None -> selected r = false.
Proof.
  intros Hc Hn. destruct (selected r) eqn:Hsel; [|reflexivity].
  destruct (selected_inv r Hsel) as (_ & d & _ & _ & _ & Hd & _).
  rewrite (ratio_operand_item r Hc) in Hd. congruence.
Qed.

Lemma property_type_null_excluded r : property_type r = None -> selected r = false.
Proof.
  intros Hn. destruct (selected r) eqn:Hsel; [|reflexivity].
  destruct (selected_inv r Hsel) as (pt & _ & _ & Hpt & _). congruence.
Qed.

Lemma scraping_date_null_excluded r : scraping_date r = None -> selected r = false.
Proof.
  intros Hn. destruct (selected r) eqn:Hsel; [|reflexivity].
  destruct (selected_inv r Hsel) as (_ & _ & s & _ & _ & _ & _ & _ & Hs & _). congruence.
Qed.

(** In a table without the two unexpected columns, a null in any
    nullable field but [municipality] excludes the row. *)
Lemma null_input_excluded r :
  column_price r = None ->
  column_price_per_square_meter r = None ->
  raw_price r = None \/ living_area r = None
  \/ property_type r = None \/ scraping_date r = None ->
  selected r = false.
Proof.
  intros Hcp Hcr [Hn|[Hn|[Hn|Hn]]].
  - apply (ratio_null_excluded r Hcr), (price_null_ratio_null r Hcp).
    unfold price. now rewrite Hn.
  - now apply (ratio_null_excluded r Hcr), living_area_null_ratio_null.
  - now apply property_type_null_excluded.
  - now apply scraping_date_null_excluded.
Qed.

(** *** A record the filter excludes, in a file without the two keys *)

Lemma no_key_split (f : line (D:=D) -> bool) (pre post : list line) l :
  existsb f (pre ++ l :: post) = false ->
  f l = false /\ existsb f (pre ++ post) = false.
Proof.
  rewrite !existsb_app. cbn [existsb]. intros H.
  apply orb_false_iff in H as [Hpre H]. apply orb_false_iff in H as [Hl Hpost].
  now rewrite Hpre, Hpost.
Qed.

Lemma read_line_columns l r :
  read_line l = Ok r ->
  column_price r = None /\ column_price_per_square_meter r = None.
Proof.
  intros Hl. apply read_line_id in Hl as (_ & Hp & Hq). split; [now apply Hp | now apply Hq].
Qed.

Lemma excluded_record (pre post : list line) l r db :
  expected db ->
  pre ++ post <> [] ->
  no_price_key (pre ++ l :: post) ->
  no_ratio_key (pre ++ l :: post) ->
  read_line l = Ok r ->
  selected r = false ->
  (run (pre ++ l :: post) db).1 = (run (pre ++ post) db).1
  /\ store (run (pre ++ l :: post) db).2 = store (run (pre ++ post) db).2
  /\ (run [l] db).1 = Ok tt
  /\ stored (store (run [l] db).2) = stored db.
Proof.
  intros Hexp Hne Hp Hq Hl Hsel.
  apply no_key_split in Hp as [Hp Hp']. apply no_key_split in Hq as [Hq Hq'].
  assert (length (t_columns (current db)) = 7) as Hlen by now rewrite Hexp.
  destruct (excluded_alone l r db Hp Hq Hl Hsel Hlen) as (_ & H3 & H4).
  assert (read_line_with (existsb names_price (pre ++ post))
            (existsb names_price_per_square_meter (pre ++ post)) l = Ok r) as Hl'
    by (rewrite Hp', Hq'; exact Hl).
  destruct (excluded_transparent pre post l r db Hne Hp Hq Hl' Hsel) as [H1 H2].
  now repeat split.
Qed.

End LoadFacts.


(** * The claims *)

Section Claims.

Context {D : Type} {engine : Engine D}.

Implicit Types (db : gmap string (table (D:=D))) (file : list (line (D:=D))).
Implicit Types (files : list (list (line (D:=D)))) (row : list (value (D:=D))).
Implicit Types (r : raw_record (D:=D)) (batch : list (raw_record (D:=D))).
Implicit Types (l : line (D:=D)) (o : json_object (D:=D)).



(** C3, for a record of a file in which no object has a key [price] or
    [price_per_square_meter], on the table of this program.  The [price]
    of the record is the numeric cast of its [raw_price] cut before the
    first currency marker and freed of its spaces.  When the cast fails
    (or [raw_price] is null) the price is NULL, so is the price per
    square meter, the range test is UNKNOWN and the row is not selected:
    with the record among the other lines of the file or not, the run
    returns or raises alike and leaves the same tables, and a file of
    that record alone makes the run return with nothing inserted. *)
Theorem price_cast_failure_drops_row (pre post : list line) o r db :
  expected db ->
  pre ++ post <> [] ->
  no_price_key (pre ++ Object o :: post) ->
  no_ratio_key (pre ++ Object o :: post) ->
  read_line (Object o) = Ok r ->
  price r =
    (s ← raw_price r;
     TRY_CAST_DOUBLE (Text.without_spaces (Text.text_before Text.euro s)))
  /\ (price r = None ->
      price_per_square_meter r = None
      /\ sql_between (price_per_square_meter r) (of_integer 500) (of_integer 15000) = None
      /\ selected r = false
      /\ (run (pre ++ Object o :: post) db).1 = (run (pre ++ post) db).1
      /\ store (run (pre ++ Object o :: post) db).2 = store (run (pre ++ post) db).2
      /\ (run [Object o] db).1 = Ok tt
      /\ stored (store (run [Object o] db).2) = stored db).
Proof.
  intros Hexp Hne Hkp Hkq Hl. split; [apply price_in_words|].
  intros Hp.
  destruct (read_line_columns _ r Hl) as [Hcp Hcq].
  pose proof (price_null_ratio_null r Hcp Hp) as Hn.
  pose proof (ratio_null_excluded r Hcq Hn) as Hsel.
  destruct (excluded_record pre post _ r db Hexp Hne Hkp Hkq Hl Hsel)
    as (H1 & H2 & H3 & H4).
  split; [exact Hn|]. split; [now rewrite Hn|]. now repeat split.
Qed.

(** C4.  A file with a line that violates the schema (no object, a
    member absent or null under a field that is not nullable, as [id]
    is, or a member of another kind than its field declares) makes the
    run raise the reader's exception before the database is opened: the
    store is the one the run found, and the log has the first line only.
    An object without [id] is such a line. *)
Theorem schema_violation_aborts file db l :
  l ∈ file ->
  violates_schema l = true ->
  run file db = (Raise ArrowInvalid, {| store := db; log := [reading_line] |})
  /\ stored (store (run file db).2) = stored db
  /\ (forall o, j_id o = None -> violates_schema (Object o) = true).
Proof.
  intros Hin Hv.
  rewrite (run_read_raise _ _ _ (read_json_violates file l Hin Hv)).
  repeat split. intros o Ho. cbn [violates_schema]. unfold field_violated at 1.
  now rewrite Ho.
Qed.


(** C6.  Creating the table is idempotent.  The step returns; run again
    on the world it left it returns and changes nothing.  After it there
    is a table [properties]: the table that was there with its columns
    and rows, or, where there was none, an empty one with the seven
    columns of the statement.  A store that held that table stays as it
    was, and from the store without tables two creations leave one
    table. *)
Theorem table_creation_idempotent (w : world (D:=D)) :
  let create := execute (fun db => Ok (CREATE_DUCKDB_TABLE_QUERY db)) in
  let w1 := (create w).2 in
  (create w).1 = Ok tt
  /\ create w1 = (Ok tt, w1)
  /\ store w1 !! "properties" = Some (current (store w))
  /\ (forall t, store w !! "properties" = Some t -> w1 = w)
  /\ (store w !! "properties" = None ->
      store w1 !! "properties"
      = Some {| t_columns := properties_columns; t_rows := [] |})
  /\ dom (store w1) = dom (store w) ∪ {["properties"]}
  /\ (store w = ∅ -> size (store (create w1).2) = 1).
Proof.
  intros create w1. subst create w1. unfold execute. cbn [fst snd store log].
  rewrite create_idempotent.
  split; [reflexivity|]. split; [reflexivity|]. split; [apply create_lookup|].
  split; [|split; [|split]].
  - intros t Ht. rewrite (create_present _ _ Ht). now destruct w.
  - intros Hn. rewrite create_lookup. unfold current. now rewrite Hn.
  - unfold CREATE_DUCKDB_TABLE_QUERY.
    destruct (store w !! "properties") as [t|] eqn:Ht.
    + assert ("properties" ∈ dom (store w)) as Hin by (apply elem_of_dom; eauto).
      rewrite (union_comm_L (dom (store w))). symmetry.
      apply subseteq_union_1_L. now apply singleton_subseteq_l.
    + rewrite dom_insert_L. apply union_comm_L.
  - intros ->. unfold CREATE_DUCKDB_TABLE_QUERY. rewrite lookup_empty.
    rewrite map_size_insert_None by apply lookup_empty. now rewrite map_size_empty.
Qed.

(** C7.  The load neither looks for duplicates nor updates.  When a run
    from an empty table returns, the run of the same file on the store
    it left returns too and appends the same rows again: the table then
    holds them twice, its row count is twice the number the first run
    logged as inserted, and whatever a run does, returning or raising,
    the rows that were stored stay, in place, at the head of the table. *)
Theorem second_run_duplicates file db (w1 : world (D:=D)) :
  stored db = [] ->
  run file db = (Ok tt, w1) ->
  exists (w2 : world (D:=D)) (n : Z),
    run file (store w1) = (Ok tt, w2)
    /\ last (log w1) = Some (inserted_line n)
    /\ count_properties (store w1) = Ok n
    /\ stored (store w2) = stored (store w1) ++ stored (store w1)
    /\ count_properties (store w2) = Ok (2 * n)%Z
    /\ (forall file' db', exists rows,
          stored (store (run file' db').2) = stored db' ++ rows).
Proof.
  intros Hempty Hrun.
  destruct (read_json file) as [batch|e] eqn:Hr;
    [|rewrite (run_read_raise _ _ _ Hr) in Hrun; discriminate].
  pose proof (run_read_ok _ db _ Hr) as H1. rewrite Hrun in H1.
  destruct (insert_into (current db) (select_rows batch)) as [t1|e] eqn:Hi1;
    [|discriminate].
  injection H1 as ->.
  pose proof (insert_into_ok _ _ _ Hi1) as Ht1.
  fold (stored db) in Ht1. rewrite Hempty in Ht1. cbn [app] in Ht1.
  pose proof (run_read_ok _ (<["properties" := t1]> (CREATE_DUCKDB_TABLE_QUERY db)) _ Hr)
    as H2.
  unfold stored in H2. rewrite current_insert in H2.
  pose proof (insert_into_columns (current db) t1 (select_rows batch)) as Hsame.
  rewrite Hi1 in Hsame.
  destruct (insert_into t1 (select_rows batch)) as [t2|e] eqn:Hi2;
    [|exfalso; apply Hsame; now rewrite Ht1].
  pose proof (insert_into_ok _ _ _ Hi2) as Ht2.
  eexists. exists (Z.of_nat (length (select_rows batch))).
  cbn [store log].
  split; [exact H2|]. cbn [store log].
  split; [|split; [|split; [|split]]].
  - rewrite Hempty. cbn [last length]. rewrite Ht1. cbn [t_rows].
    do 2 f_equal. lia.
  - unfold count_properties. rewrite lookup_insert_eq, Ht1. reflexivity.
  - unfold stored. rewrite !current_insert. rewrite Ht2, Ht1. reflexivity.
  - unfold count_properties. rewrite lookup_insert_eq, Ht2, Ht1. cbn [t_rows].
    rewrite length_app. f_equal. lia.
  - intros file' db'. destruct (run_appends file' db') as (rows & Heq & _). eauto.
Qed.

(** C8, as the code has it.  A run that returns has written four log
    lines: the file being read, the number of rows read, the number of
    rows in the table before the insertion, and the number of rows
    inserted, which is the number of rows the filter selected.  The
    number of rows after the insertion is the sum of the last two; no
    line of its own carries it. *)
Theorem log_of_returning_run file db (w : world (D:=D)) :
  run file db = (Ok tt, w) ->
  exists batch,
    read_json file = Ok batch
    /\ count_properties (CREATE_DUCKDB_TABLE_QUERY db) = Ok (Z.of_nat (length (stored db)))
    /\ log w =
       [ reading_line;
         rows_read_line (num_rows batch);
         before_line (Z.of_nat (length (stored db)));
         inserted_line (Z.of_nat (length (filter (fun r => selected r = true) batch))) ]
    /\ count_properties (store w)
       = Ok (Z.of_nat (length (stored db))
             + Z.of_nat (length (filter (fun r => selected r = true) batch)))%Z.
Proof.
  intros Hrun.
  destruct (read_json file) as [batch|e] eqn:Hr;
    [|rewrite (run_read_raise _ _ _ Hr) in Hrun; discriminate].
  pose proof (run_read_ok _ db _ Hr) as H1. rewrite Hrun in H1.
  destruct (insert_into (current db) (select_rows batch)) as [t1|e] eqn:Hi1;
    [|discriminate].
  injection H1 as ->. rewrite (insert_into_ok _ _ _ Hi1). cbn [store log t_rows].
  exists batch. split; [reflexivity|].
  fold (stored db). rewrite length_app, select_rows_length.
  split; [|split].
  - unfold count_properties. now rewrite create_lookup.
  - do 4 f_equal. unfold inserted_line. do 2 f_equal. lia.
  - unfold count_properties. rewrite lookup_insert_eq. cbn [t_rows].
    rewrite length_app, select_rows_length. f_equal. lia.
Qed.

(** C9, for a file in which no object has a key [price] or
    [price_per_square_meter] and the text of the records the filter
    selects is well-formed UTF-8.  On the table this program creates,
    once the file is read: a record the filter selects whose
    [municipality] is null makes the INSERT raise the NOT NULL constraint
    of that column, the run raises with it after three log lines, and no
    row of the file is stored; a run that does not return raises that
    very exception for such a record; and a null in any other nullable
    field only keeps its record out of the selection. *)
Theorem null_municipality_aborts file batch db :
  expected db ->
  read_json file = Ok batch ->
  no_price_key file ->
  no_ratio_key file ->
  (forall r, r ∈ batch -> selected r = true -> valid_stored r = true) ->
  ((exists r, r ∈ batch /\ selected r = true /\ municipality r = None) ->
   run file db =
   (Raise (ConstraintException "municipality"),
    {| store := CREATE_DUCKDB_TABLE_QUERY db;
       log := [ reading_line;
                rows_read_line (num_rows batch);
                before_line (Z.of_nat (length (stored db))) ] |})
   /\ stored (store (run file db).2) = stored db)
  /\ ((run file db).1 <> Ok tt ->
      (run file db).1 = Raise (ConstraintException "municipality")
      /\ exists r, r ∈ batch /\ selected r = true /\ municipality r = None)
  /\ (forall r,
        r ∈ batch ->
        raw_price r = None \/ living_area r = None
        \/ property_type r = None \/ scraping_date r = None ->
        selected r = false).
Proof.
  intros Hexp Hr Hkp Hkq Hvalid.
  assert (forall r, r ∈ batch ->
            (exists s, id r = Some s)
            /\ column_price r = None /\ column_price_per_square_meter r = None) as Hcols.
  { intros r Hin. destruct (read_json_id file batch r Hr Hin) as (Hid & Hp & Hq).
    split; [exact Hid|]. split; [now apply Hp | now apply Hq]. }
  assert (forall r,
            r ∈ batch ->
            raw_price r = None \/ living_area r = None
            \/ property_type r = None \/ scraping_date r = None ->
            selected r = false) as Hnull.
  { intros r Hin. destruct (Hcols r Hin) as (_ & Hp & Hq).
    now apply null_input_excluded. }
  pose proof (run_read_ok _ db _ Hr) as Hrun.
  rewrite (insert_into_outcome (current db) batch Hexp Hcols Hvalid) in Hrun.
  destruct (decide (Exists (fun r => selected r = true /\ municipality r = None) batch))
    as [Hex|Hall].
  - rewrite Hrun. cbn [fst snd store].
    split; [intros _; split; [reflexivity|]|split].
    + unfold stored. now rewrite current_create.
    + intros _. split; [reflexivity|].
      apply Exists_exists in Hex as (r & Hin & Hsel & Hm). now exists r.
    + exact Hnull.
  - rewrite Hrun. cbn [fst snd store].
    split; [|split].
    + intros (r & Hin & Hsel & Hm). exfalso. apply Hall, Exists_exists.
      exists r. now repeat split.
    + intros Hne. now contradiction Hne.
    + exact Hnull.
Qed.

End Claims.

(** ** The claims at the example inputs *)





Lemma price_cast_failure_drops_row_witness :
  expected Examples.no_table
  /\ [Object Examples.listing] ++ [] <> []
  /\ no_price_key ([Object Examples.listing] ++ Object Examples.not_a_price :: [])
  /\ no_ratio_key ([Object Examples.listing] ++ Object Examples.not_a_price :: [])
  /\ exists r,
       read_line (Object Examples.not_a_price) = Ok r
       /\ price r = None
       /\ selected r = false
       /\ (run [Object Examples.listing; Object Examples.not_a_price] Examples.no_table).1
          = (run [Object Examples.listing] Examples.no_table).1
       /\ (run [Object Examples.not_a_price] Examples.no_table).1 = Ok tt
       /\ stored (store (run [Object Examples.not_a_price] Examples.no_table).2) = [].
Proof.
  assert ([Object Examples.listing] ++ [] <> []) as Hne by discriminate.
  split; [reflexivity|]. split; [exact Hne|]. split; [reflexivity|]. split; [reflexivity|].
  eexists. split; [reflexivity|]. split; [reflexivity|].
  destruct (price_cast_failure_drops_row
              [Object Examples.listing] [] Examples.not_a_price _ Examples.no_table
              eq_refl Hne eq_refl eq_refl eq_refl)
    as [_ Hdrop].
  destruct (Hdrop eq_refl) as (_ & _ & Hsel & Hres & _ & Hone & Hrows).
  repeat split; assumption.
Defined.

(** C3, as it is worded, fails twice.  Where the whitespace is not a
    space: the query replaces the space character only, so a tab inside
    the amount stays, and the price of "530<tab>000" is NULL where the
    amount without its whitespace casts to 530000.  And for a record that
    brings a key [price] of its own: the division takes the number under
    the key, the row whose [raw_price] does not cast is selected, and the
    INSERT raises for the NULL in its price. *)
Lemma cast_failure_claim_fails :
  ~ price_strips_whitespace Examples.tabbed
  /\ ~ cast_failure_drops_row Examples.unpriced_with_price Examples.no_table.
Proof.
  split.
  - intros Hstrip. specialize (Hstrip _ eq_refl). vm_compute in Hstrip. discriminate.
  - intros Hdrop. destruct (Hdrop _ eq_refl eq_refl) as [Hsel _].
    vm_compute in Hsel. discriminate.
Qed.

Lemma table_creation_idempotent_witness :
  let create := execute (fun db => Ok (CREATE_DUCKDB_TABLE_QUERY db)) in
  let w := {| store := Examples.one_row_stored; log := [] |} in
  (create w).1 = Ok tt
  /\ create (create w).2 = (Ok tt, (create w).2)
  /\ (create w).2 = w.
Proof.
  intros create w.
  destruct (table_creation_idempotent w) as (Hfirst & Hagain & _ & Hkept & _).
  split; [exact Hfirst|]. split; [exact Hagain|].
  apply (Hkept (current (store w))). vm_compute. reflexivity.
Defined.

Lemma schema_violation_aborts_witness :
  Object Examples.without_id ∈ [Object Examples.listing; Object Examples.without_id]
  /\ violates_schema (Object Examples.without_id) = true
  /\ run [Object Examples.listing; Object Examples.without_id] Examples.no_table
     = (Raise ArrowInvalid, {| store := Examples.no_table; log := [reading_line] |}).
Proof.
  assert (Object Examples.without_id
          ∈ [Object Examples.listing; Object Examples.without_id]) as Hin
    by (right; left).
  split; [exact Hin|]. split; [reflexivity|].
  exact (proj1 (schema_violation_aborts _ Examples.no_table _ Hin eq_refl)).
Defined.



(** C5.  The example listing: its price is 530000, its price per square
    meter 5300, the filter selects it, and the run of the file that holds
    it returns with that row stored.  The same listing scraped on
    2019-01-01 is not selected. *)
Theorem example_listing_kept :
  exists r,
    read_line (Object Examples.listing) = Ok r
    /\ raw_price r = Some "530 000€/mo."
    /\ Text.REPLACE (Text.SPLIT_PART "530 000€/mo." Text.euro 1) " " "" = "530000"
    /\ price r = Some 530000%Q
    /\ price_per_square_meter r = Some 5300%Q
    /\ selected r = true
    /\ (run [Object Examples.listing] Examples.no_table).1 = Ok tt
    /\ stored (store (run [Object Examples.listing] Examples.no_table).2)
       = [Examples.listing_row]
    /\ stored (store (run [Object (Examples.listing_on "2019-01-01")] Examples.no_table).2)
       = [].
Proof. eexists. repeat split; vm_compute; reflexivity. Qed.

Lemma second_run_duplicates_witness :
  stored Examples.no_table = []
  /\ exists w1 w2,
       run [Object Examples.listing] Examples.no_table = (Ok tt, w1)
       /\ run [Object Examples.listing] (store w1) = (Ok tt, w2)
       /\ stored (store w2) = stored (store w1) ++ stored (store w1)
       /\ count_properties (store w2) = Ok 2%Z.
Proof.
  split; [reflexivity|].
  assert (run [Object Examples.listing] Examples.no_table
          = (Ok tt, (run [Object Examples.listing] Examples.no_table).2)) as Hrun
    by (vm_compute; reflexivity).
  destruct (second_run_duplicates _ Examples.no_table _ eq_refl Hrun)
    as (w2 & n & H2 & _ & Hn & Hrows & Hcount & _).
  exists (run [Object Examples.listing] Examples.no_table).2, w2.
  split; [exact Hrun|]. split; [exact H2|]. split; [exact Hrows|].
  assert (n = 1%Z) as -> by (vm_compute in Hn; congruence).
  exact Hcount.
Defined.

(** C8, as it is worded, fails: on the table of one row the file of four
    lines, two of them selected, is read, and the run returns.  The log
    carries 4, 1 and 2; the table then has 3 rows, and no line says so. *)
Lemma after_count_not_logged :
  ~ log_reports_four_counts Examples.four_lines Examples.one_row_stored.
Proof.
  intros Hlog.
  assert (run Examples.four_lines Examples.one_row_stored
          = (Ok tt, (run Examples.four_lines Examples.one_row_stored).2)) as Hrun
    by (vm_compute; reflexivity).
  assert (exists batch, read_json Examples.four_lines = Ok batch) as [batch Hbatch]
    by (eexists; vm_compute; reflexivity).
  destruct (Hlog _ batch 1%Z 3%Z Hrun Hbatch) as (_ & _ & Hafter & _);
    [vm_compute; reflexivity | vm_compute; reflexivity |].
  vm_compute in Hafter. discriminate.
Qed.

Lemma log_of_returning_run_witness :
  exists w,
    run Examples.four_lines Examples.one_row_stored = (Ok tt, w)
    /\ (arg <$> log w)
       = [ path_arg RAW_DATA_DIR; int_arg 4; int_arg 1; int_arg 2 ]
    /\ count_properties (store w) = Ok 3%Z.
Proof.
  assert (run Examples.four_lines Examples.one_row_stored
          = (Ok tt, (run Examples.four_lines Examples.one_row_stored).2)) as Hrun
    by (vm_compute; reflexivity).
  destruct (log_of_returning_run _ _ _ Hrun) as (batch & Hbatch & _ & Hlog & Hcount).
  eexists. split; [exact Hrun|].
  assert (batch = match read_json Examples.four_lines with Ok b => b | Raise _ => [] end)
    as -> by now rewrite Hbatch.
  split.
  - rewrite Hlog. vm_compute. reflexivity.
  - rewrite Hcount. vm_compute. reflexivity.
Defined.

Lemma null_municipality_aborts_witness :
  expected Examples.no_table
  /\ no_price_key Examples.unlocated_file
  /\ no_ratio_key Examples.unlocated_file
  /\ (exists batch,
        read_json Examples.unlocated_file = Ok batch
        /\ forall r, r ∈ batch -> selected r = true -> valid_stored r = true)
  /\ (run Examples.unlocated_file Examples.no_table).1
     = Raise (ConstraintException "municipality")
  /\ stored (store (run Examples.unlocated_file Examples.no_table).2) = [].
Proof.
  assert (exists batch,
            read_json Examples.unlocated_file = Ok batch
            /\ forall r, r ∈ batch -> selected r = true -> valid_stored r = true)
    as (batch & Hbatch & Hvalid).
  { eexists. split; [vm_compute; reflexivity|].
    intros r Hin _.
    apply elem_of_cons in Hin as [->|Hin]; [reflexivity|].
    apply elem_of_cons in Hin as [->|Hin]; [reflexivity|].
    now apply elem_of_nil in Hin. }
  split; [reflexivity|]. split; [reflexivity|]. split; [reflexivity|].
  split; [exists batch; split; [exact Hbatch | exact Hvalid]|].
  destruct (null_municipality_aborts
              Examples.unlocated_file batch Examples.no_table
              eq_refl Hbatch eq_refl eq_refl Hvalid) as (Habort & _ & _).
  destruct Habort as [Hrun Hrows].
  - assert (batch = match read_json Examples.unlocated_file with
                    | Ok b => b
                    | Raise _ => []
                    end) as -> by now rewrite Hbatch.
    eexists. split; [right; left|]. split; reflexivity.
  - rewrite Hrun. split; [reflexivity | exact Hrows].
Defined.

(** C9, as it is worded, fails twice.  For a record that brings a key
    [price_per_square_meter] of its own: the file is read, the record
    without [living_area] is selected on the number under the key, and
    the INSERT raises the NOT NULL constraint of [living_area], not of
    [municipality].  And for a selected record whose [municipality] is
    there but is no UTF-8: the file is read, and the INSERT raises for
    the text, with no NULL anywhere. *)
Lemma other_aborts_after_reading :
  ~ only_municipality_aborts [Object Examples.arealess_with_ratio] Examples.no_table
  /\ ~ only_municipality_aborts [Object Examples.latin1_municipality] Examples.no_table.
Proof.
  split; intros Honly.
  - assert (exists batch, read_json [Object Examples.arealess_with_ratio] = Ok batch)
      as [batch Hbatch] by (eexists; vm_compute; reflexivity).
    assert ((run [Object Examples.arealess_with_ratio] Examples.no_table).1
            = Raise (ConstraintException "living_area")) as Hrun
      by (vm_compute; reflexivity).
    pose proof (Honly batch _ Hbatch Hrun) as Heq. discriminate.
  - assert (exists batch, read_json [Object Examples.latin1_municipality] = Ok batch)
      as [batch Hbatch] by (eexists; vm_compute; reflexivity).
    assert ((run [Object Examples.latin1_municipality] Examples.no_table).1
            = Raise InvalidInputException) as Hrun
      by (vm_compute; reflexivity).
    pose proof (Honly batch _ Hbatch Hrun) as Heq. discriminate.
Qed.

(** * Further properties of the load *)

(** ** The marker in a text *)

Module MarkerFacts.
Import Text.

Open Scope string_scope.

Lemma prefix_self_app (m b : string) : String.prefix m (m ++ b) = true.
Proof.
  induction m as [|x m IH]; [apply TextFacts.prefix_empty|].
  rewrite TextFacts.append_cons. cbn [String.prefix].
  destruct (ascii_dec x x) as [_|Hne]; [exact IH | contradiction].
Qed.

(** Whether [m] starts a text is decided by the first [length m] bytes. *)
Lemma prefix_app_long (m x b : string) :
  String.length m <= String.length x ->
  String.prefix m (x ++ b) = String.prefix m x.
Proof.
  revert x. induction m as [|c m IH]; intros x Hlen.
  - now rewrite !TextFacts.prefix_empty.
  - destruct x as [|d x]; cbn [String.length] in Hlen; [lia|].
    rewrite TextFacts.append_cons. cbn [String.prefix].
    destruct (ascii_dec c d); [|reflexivity].
    apply IH. lia.
Qed.

Lemma length_append (a b : string) :
  String.length (a ++ b) = String.length a + String.length b.
Proof.
  induction a as [|x a IH]; [reflexivity|].
  rewrite TextFacts.append_cons. cbn [String.length]. now rewrite IH.
Qed.

Lemma text_before_at_marker (m s : string) :
  String.prefix m s = true -> text_before m s = "".
Proof. intros Hp. destruct s as [|c s]; [reflexivity|]. cbn [text_before]. now rewrite Hp. Qed.

(** What follows the first marker does not move the cut. *)
Lemma text_before_tail (m a b : string) :
  text_before m (a ++ m ++ b) = text_before m (a ++ m).
Proof.
  induction a as [|c a IH].
  - change ("" ++ m ++ b) with (m ++ b). change ("" ++ m) with m.
    rewrite (text_before_at_marker m (m ++ b)) by apply prefix_self_app.
    symmetry. apply text_before_at_marker.
    rewrite <- (TextFacts.append_empty_r m) at 2. apply prefix_self_app.
  - rewrite !TextFacts.append_cons. cbn [text_before].
    rewrite <- IH.
    rewrite <- (TextFacts.append_cons c a (m ++ b)), <- (TextFacts.append_cons c a m).
    rewrite <- (TextFacts.append_assoc (String c a) m b).
    rewrite prefix_app_long; [reflexivity|].
    rewrite length_append. lia.
Qed.

(** A text the marker does not occur in is not cut. *)
Lemma text_before_absent (m s : string) :
  occurs m s = false -> text_before m s = s.
Proof.
  induction s as [|c s IH]; [reflexivity|].
  cbn [occurs text_before]. intros Ho. apply orb_false_iff in Ho as [-> Ho].
  now rewrite IH.
Qed.

(** An amount the currency marker does not occur in is what is cut off
    before the marker that follows it: no byte of the marker can start
    inside the amount. *)
Lemma euro_cut (a : string) :
  occurs euro a = false -> text_before euro (a ++ euro) = a.
Proof.
  induction a as [|c a IH]; [reflexivity|].
  cbn [occurs]. intros Ho. apply orb_false_iff in Ho as [Hp Ho].
  rewrite TextFacts.append_cons. cbn [text_before].
  assert (String.prefix euro (String c (a ++ euro)) = false) as ->.
  { unfold euro in *. cbn [String.prefix] in Hp |- *.
    destruct (ascii_dec "226" c) as [_|]; [|reflexivity].
    destruct a as [|c1 a]; [reflexivity|].
    rewrite TextFacts.append_cons. cbn [String.prefix] in Hp |- *.
    destruct (ascii_dec "130" c1) as [_|]; [|reflexivity].
    destruct a as [|c2 a]; [reflexivity|].
    rewrite TextFacts.append_cons. cbn [String.prefix] in Hp |- *.
    destruct (ascii_dec "172" c2) as [_|]; [|reflexivity].
    now rewrite TextFacts.prefix_empty in Hp. }
  now rewrite IH.
Qed.

End MarkerFacts.

Close Scope string_scope.

(** ** Lists of results under a change of order *)

Lemma rmap_Permutation {A B : Type} (f : A -> result B) (l l' : list A) (ys : list B) :
  l ≡ₚ l' -> rmap f l = Ok ys -> exists ys', rmap f l' = Ok ys' /\ ys ≡ₚ ys'.
Proof.
  intros Hp. revert ys. induction Hp as [|x l l' Hp IH|x y l|l l' l'' Hp1 IH1 Hp2 IH2];
    intros ys; cbn [rmap].
  - intros [= <-]. now exists [].
  - destruct (f x) as [b|e]; cbn [rbind]; [|discriminate].
    destruct (rmap f l) as [bs|e]; cbn [rbind]; [|discriminate].
    intros [= <-]. destruct (IH bs eq_refl) as (bs' & -> & Hbs). cbn [rbind].
    exists (b :: bs'). split; [reflexivity | now constructor].
  - destruct (f y) as [b|e]; cbn [rbind]; [|discriminate].
    destruct (f x) as [c|e]; cbn [rbind]; [|discriminate].
    destruct (rmap f l) as [bs|e]; cbn [rbind]; [|discriminate].
    intros [= <-]. exists (c :: b :: bs). split; [reflexivity | apply perm_swap].
  - intros Hys. destruct (IH1 ys Hys) as (ys1 & H1 & Hp1').
    destruct (IH2 ys1 H1) as (ys2 & H2 & Hp2').
    exists ys2. split; [exact H2 | now transitivity ys1].
Qed.

Lemma existsb_Permutation {A : Type} (f : A -> bool) (l l' : list A) :
  l ≡ₚ l' -> existsb f l = existsb f l'.
Proof.
  intros Hp. induction Hp as [|x l l' Hp IH|x y l|l l' l'' Hp1 IH1 Hp2 IH2];
    cbn [existsb].
  - reflexivity.
  - now rewrite IH.
  - now destruct (f x), (f y).
  - congruence.
Qed.

(** ** More on the reader, the statements and the run *)

Section CoverageFacts.

Context {D : Type} {engine : Engine D}.

Implicit Types (db : gmap string (table (D:=D))) (file : list (line (D:=D))).
Implicit Types (t : table (D:=D)) (rows : list (list (value (D:=D)))).
Implicit Types (v : value (D:=D)) (vs : list (value (D:=D))).
Implicit Types (r : raw_record (D:=D)) (batch : list (raw_record (D:=D))).
Implicit Types (l : line (D:=D)) (o : json_object (D:=D)).


(** The INSERT raises exceptions of the engine only. *)
Lemma check_value_exn c v e : check_value c v = Raise e -> e <> ArrowInvalid.
Proof.
  unfold check_value.
  destruct v as [|s|d], (c_not_null c), (c_type c); try discriminate;
    try (intros [= <-]; discriminate);
    destruct (Text.valid_utf8 s); try discriminate; intros [= <-]; discriminate.
Qed.

Lemma check_row_exn cs vs e : check_row cs vs = Raise e -> e <> ArrowInvalid.
Proof.
  revert vs. induction cs as [|c cs IH]; intros [|v vs]; cbn [check_row];
    try (intros [= <-]; discriminate).
  unfold mbind, result_bind.
  destruct (check_value c v) as [v'|e'] eqn:Hv; cbn [rbind].
  - destruct (check_row cs vs) as [vs'|e''] eqn:Hvs; cbn [rbind]; [discriminate|].
    intros [= <-]. now apply (IH vs).
  - intros [= <-]. now apply check_value_exn in Hv.
Qed.

Lemma insert_into_exn t rows e : insert_into t rows = Raise e -> e <> ArrowInvalid.
Proof.
  unfold insert_into, mbind, result_bind.
  destruct (Nat.eqb (length (t_columns t)) 7); [|intros [= <-]; discriminate].
  destruct (rmap (check_row (t_columns t)) rows) as [rows'|e'] eqn:Hr; cbn [rbind];
    [discriminate|].
  intros [= <-]. apply rmap_raise_inv in Hr as (row & _ & Hrow).
  now apply check_row_exn in Hrow.
Qed.

Lemma create_other db (name : string) :
  name <> "properties" -> CREATE_DUCKDB_TABLE_QUERY db !! name = db !! name.
Proof.
  intros Hne. unfold CREATE_DUCKDB_TABLE_QUERY.
  destruct (db !! "properties"); [reflexivity|].
  now rewrite lookup_insert_ne.
Qed.

(** The store after a run, in all three outcomes. *)
Lemma run_store file db :
  store (run file db).2 = db
  \/ store (run file db).2 = CREATE_DUCKDB_TABLE_QUERY db
  \/ exists rows,
       store (run file db).2 =
       <["properties" := {| t_columns := t_columns (current db);
                            t_rows := stored db ++ rows |}]> (CREATE_DUCKDB_TABLE_QUERY db).
Proof.
  destruct (read_json file) as [batch|e] eqn:Hr.
  - rewrite (run_read_ok _ _ _ Hr).
    destruct (insert_into (current db) (select_rows batch)) as [t'|e] eqn:Hi; cbn [snd store].
    + right. right. exists (select_rows batch). now rewrite (insert_into_ok _ _ _ Hi).
    + right. now left.
  - rewrite (run_read_raise _ _ _ Hr). now left.
Qed.

(** A run that raises, run again on the store it left, is the same run. *)
Lemma run_create file db :
  run file (CREATE_DUCKDB_TABLE_QUERY db) =
  match read_json file with
  | Ok _ => run file db
  | Raise e => (Raise e, {| store := CREATE_DUCKDB_TABLE_QUERY db; log := [reading_line] |})
  end.
Proof.
  destruct (read_json file) as [batch|e] eqn:Hr.
  - rewrite (run_read_ok _ _ _ Hr), (run_read_ok _ db _ Hr).
    unfold stored. now rewrite current_create, create_idempotent.
  - now rewrite (run_read_raise _ _ _ Hr).
Qed.

End CoverageFacts.

Section Coverage.

Context {D : Type} {engine : Engine D}.

Implicit Types (db : gmap string (table (D:=D))) (file : list (line (D:=D))).
Implicit Types (files : list (list (line (D:=D)))) (t : table (D:=D)).
Implicit Types (r : raw_record (D:=D)) (batch : list (raw_record (D:=D))).
Implicit Types (l : line (D:=D)) (o : json_object (D:=D)).

(** One run on a store that has the table. *)
Lemma run_keeps_table file db t :
  db !! "properties" = Some t ->
  exists t' rows,
    store (run file db).2 !! "properties" = Some t'
    /\ t_columns t' = t_columns t
    /\ t_rows t' = t_rows t ++ rows.
Proof.
  intros Ht.
  assert (current db = t) as Hcur by (unfold current; now rewrite Ht).
  destruct (run_store file db) as [->|[->|(rows & ->)]].
  - exists t, []. now rewrite app_nil_r.
  - rewrite (create_present _ _ Ht). exists t, []. now rewrite app_nil_r.
  - rewrite lookup_insert_eq. unfold stored. rewrite Hcur. eauto.
Qed.

Lemma run_other_tables file db (name : string) :
  name <> "properties" -> store (run file db).2 !! name = db !! name.
Proof.
  intros Hne. destruct (run_store file db) as [->|[->|(rows & ->)]].
  - reflexivity.
  - now apply create_other.
  - rewrite lookup_insert_ne by congruence. now apply create_other.
Qed.


(** X5.  A run reads and writes [properties] only: after any sequence of
    runs, returning or raising, every table of another name is what it
    was. *)
Theorem other_tables_untouched files db (name : string) :
  name <> "properties" -> runs files db !! name = db !! name.
Proof.
  intros Hne. revert db. induction files as [|file files IH]; intros db; cbn [runs foldl].
  - reflexivity.
  - fold (runs files (store (run file db).2)). rewrite IH. now apply run_other_tables.
Qed.

(** X6.  The table is never dropped, recreated or altered: a table
    [properties] that exists, whatever its columns, exists after any
    sequence of runs with the same columns, and its rows are still there,
    in place, before the rows the runs appended. *)
Theorem table_never_altered files db t :
  db !! "properties" = Some t ->
  exists t' rows,
    runs files db !! "properties" = Some t'
    /\ t_columns t' = t_columns t
    /\ t_rows t' = t_rows t ++ rows.
Proof.
  revert db t. induction files as [|file files IH]; intros db t Ht; cbn [runs foldl].
  - exists t, []. now rewrite app_nil_r.
  - fold (runs files (store (run file db).2)).
    destruct (run_keeps_table file db t Ht) as (t1 & rows1 & Ht1 & Hc1 & Hr1).
    destruct (IH _ t1 Ht1) as (t2 & rows2 & Ht2 & Hc2 & Hr2).
    exists t2, (rows1 ++ rows2). split; [exact Ht2|]. split; [congruence|].
    now rewrite Hr2, Hr1, app_assoc.
Qed.

(** X7.  The exception tells how far a failed run got, among the
    failures of the reader and of the two statements.  [ArrowInvalid]
    comes from the reader: the store is untouched (no table is created)
    and the log has its first line only.  Any other exception comes from
    the INSERT: the file was read, the table exists, with the rows it
    had, and the log stops after the count before insertion. *)
Theorem failure_stages file db e :
  (run file db).1 = Raise e ->
  (e = ArrowInvalid
   /\ read_json file = Raise ArrowInvalid
   /\ (run file db).2 = {| store := db; log := [reading_line] |})
  \/ (e <> ArrowInvalid
      /\ exists batch,
           read_json file = Ok batch
           /\ (run file db).2 =
              {| store := CREATE_DUCKDB_TABLE_QUERY db;
                 log := [ reading_line;
                          rows_read_line (num_rows batch);
                          before_line (Z.of_nat (length (stored db))) ] |}
           /\ store (run file db).2 !! "properties" = Some (current db)).
Proof.
  destruct (read_json file) as [batch|e'] eqn:Hr.
  - rewrite (run_read_ok _ _ _ Hr).
    destruct (insert_into (current db) (select_rows batch)) as [t'|e''] eqn:Hi;
      cbn [fst snd]; [discriminate|].
    intros [= <-]. right. split; [now apply insert_into_exn in Hi|].
    exists batch. split; [reflexivity|]. split; [reflexivity|]. apply create_lookup.
  - rewrite (run_read_raise _ _ _ Hr). cbn [fst snd]. intros [= <-].
    pose proof (read_json_exn _ _ Hr) as ->. left. now repeat split.
Qed.

(** X8.  The line "Rows inserted" is in the log exactly when the run
    returned: a run that raises, at either stage, never writes it. *)
Theorem inserted_line_iff_returns file db :
  (run file db).1 = Ok tt <-> exists n, inserted_line n ∈ log (run file db).2.
Proof.
  destruct (read_json file) as [batch|e] eqn:Hr.
  - rewrite (run_read_ok _ _ _ Hr).
    destruct (insert_into (current db) (select_rows batch)) as [t'|e]; cbn [fst snd log].
    + split; [intros _|reflexivity]. eexists. do 3 right. left.
    + split; [discriminate|]. intros [n Hn].
      repeat (apply elem_of_cons in Hn as [Hn|Hn]; [discriminate|]).
      now apply elem_of_nil in Hn.
  - rewrite (run_read_raise _ _ _ Hr). cbn [fst snd log].
    split; [discriminate|]. intros [n Hn].
    repeat (apply elem_of_cons in Hn as [Hn|Hn]; [discriminate|]).
    now apply elem_of_nil in Hn.
Qed.

(** Whether a file's run returns is the same on every store whose table
    has the same columns. *)
Lemma run_returns_on file db db' batch :
  read_json file = Ok batch ->
  (run file db).1 = Ok tt ->
  t_columns (current db') = t_columns (current db) ->
  (run file db').1 = Ok tt
  /\ stored (store (run file db').2) = stored db' ++ select_rows batch
  /\ t_columns (current (store (run file db').2)) = t_columns (current db').
Proof.
  intros Hr Hrun Hc.
  rewrite (run_read_ok _ _ _ Hr) in Hrun. rewrite (run_read_ok _ db' _ Hr).
  pose proof (insert_into_columns (current db') (current db) (select_rows batch) Hc) as Hsame.
  destruct (insert_into (current db) (select_rows batch)) as [t1|e1]; [|discriminate].
  destruct (insert_into (current db') (select_rows batch)) as [t2|e2] eqn:Hi;
    [|contradiction].
  cbn [fst snd store]. unfold stored at 1. rewrite current_insert.
  rewrite (insert_into_ok _ _ _ Hi). now repeat split.
Qed.

Lemma select_rows_Permutation batch batch' :
  batch ≡ₚ batch' -> select_rows batch ≡ₚ select_rows batch'.
Proof. intros Hp. unfold select_rows. now rewrite Hp. Qed.

(** X9.  The table grows by the same rows at every run of the same file:
    when a run from an empty table returns, [k] runs of the file in a
    row leave [k] copies of the rows of the first, one after the other. *)
Theorem repeated_runs file db (w : world (D:=D)) (k : nat) :
  stored db = [] ->
  run file db = (Ok tt, w) ->
  stored (runs (replicate k file) db) = concat (replicate k (stored (store w)))
  /\ length (stored (runs (replicate k file) db)) = k * length (stored (store w)).
Proof.
  intros Hempty Hrun.
  assert ((run file db).1 = Ok tt) as Hok by now rewrite Hrun.
  pose proof (run_outcome file db) as Ho. rewrite Hok in Ho.
  destruct Ho as (batch & Hr & Hw). rewrite Hrun, Hempty in Hw. cbn [snd app] in Hw.
  rewrite Hw.
  assert (forall db', t_columns (current db') = t_columns (current db) ->
            stored (runs (replicate k file) db')
            = stored db' ++ concat (replicate k (select_rows batch))) as Hgen.
  { induction k as [|k IH]; intros db' Hc; cbn [replicate runs foldl concat].
    - now rewrite app_nil_r.
    - fold (runs (replicate k file) (store (run file db').2)).
      destruct (run_returns_on file db db' batch Hr Hok Hc) as (_ & Hrows & Hcols).
      rewrite IH by congruence. rewrite Hrows. now rewrite app_assoc. }
  rewrite (Hgen db eq_refl), Hempty. cbn [app]. split; [reflexivity|].
  clear. induction k as [|k IH]; cbn [replicate concat length]; [reflexivity|].
  rewrite length_app, IH. lia.
Qed.

(** X11.  What follows the first currency marker never matters: two
    records whose [raw_price] agree up to and including a marker have
    the same price, so "/mo." or any other tail is ignored. *)
Theorem text_after_marker_ignored r1 r2 (a b1 b2 : string) :
  raw_price r1 = Some (a +:+ Text.euro +:+ b1) ->
  raw_price r2 = Some (a +:+ Text.euro +:+ b2) ->
  price r1 = price r2.
Proof.
  intros H1 H2. rewrite !price_in_words, H1, H2. cbn [mbind option_bind].
  now rewrite !MarkerFacts.text_before_tail.
Qed.

(** X12.  The price is the cast of the amount: for a [raw_price] that is
    an amount without the currency marker, alone or followed by the
    marker and anything else, the price is the cast of the amount freed
    of its spaces. *)
Theorem amount_is_cast r (a b : string) :
  Text.occurs Text.euro a = false ->
  raw_price r = Some (a +:+ Text.euro +:+ b) \/ raw_price r = Some a ->
  price r = TRY_CAST_DOUBLE (Text.without_spaces a).
Proof.
  intros Ha [Hr|Hr]; rewrite price_in_words, Hr; cbn [mbind option_bind].
  - now rewrite MarkerFacts.text_before_tail, MarkerFacts.euro_cut.
  - now rewrite MarkerFacts.text_before_absent.
Qed.

(** X13.  A retry changes nothing: a run that raised, run again on the
    store it left, raises the same exception, writes the same log and
    leaves the same store. *)
Theorem failed_run_repeats file db e :
  (run file db).1 = Raise e ->
  run file (store (run file db).2) = run file db.
Proof.
  destruct (read_json file) as [batch|e'] eqn:Hr.
  - pose proof (run_read_ok _ db _ Hr) as Hrun. rewrite Hrun at 1 2.
    destruct (insert_into (current db) (select_rows batch)) as [t'|e''];
      cbn [fst snd store]; [discriminate|].
    intros _. now rewrite run_create, Hr.
  - intros _. rewrite (run_read_raise _ db _ Hr). cbn [snd store].
    apply (run_read_raise _ _ _ Hr).
Qed.

(** X14.  The order of the lines does not matter to what is stored: when
    the run of a file returns, the run of the same lines in any other
    order returns too and stores the same rows, up to their order. *)
Theorem line_order_irrelevant file file' db :
  file ≡ₚ file' ->
  (run file db).1 = Ok tt ->
  (run file' db).1 = Ok tt
  /\ stored (store (run file' db).2) ≡ₚ stored (store (run file db).2).
Proof.
  intros Hp Hrun.
  destruct (read_json file) as [batch|e] eqn:Hr;
    [|rewrite (run_read_raise _ _ _ Hr) in Hrun; discriminate].
  assert (file <> []) as Hne by (intros ->; discriminate).
  assert (file' <> []) as Hne'
    by (intros ->; apply Permutation_nil_r in Hp; contradiction).
  pose proof Hr as Hentries. rewrite (read_json_entries _ Hne) in Hentries.
  rewrite (existsb_Permutation names_price _ _ Hp) in Hentries.
  rewrite (existsb_Permutation names_price_per_square_meter _ _ Hp) in Hentries.
  destruct (rmap_Permutation _ _ _ _ Hp Hentries) as (batch' & Hr' & Hb).
  rewrite <- (read_json_entries _ Hne') in Hr'.
  rewrite (run_read_ok _ _ _ Hr) in Hrun |- *. rewrite (run_read_ok _ _ _ Hr').
  destruct (insert_into (current db) (select_rows batch)) as [t1|e1] eqn:Hi1;
    [|discriminate].
  pose proof (insert_into_ok _ _ _ Hi1) as ->.
  unfold insert_into, mbind, result_bind in Hi1 |- *.
  destruct (Nat.eqb (length (t_columns (current db))) 7); [|discriminate].
  destruct (rmap (check_row (t_columns (current db))) (select_rows batch))
    as [rows|e] eqn:Hrows; cbn [rbind] in Hi1; [|discriminate].
  destruct (rmap_Permutation _ _ _ _ (select_rows_Permutation _ _ Hb) Hrows)
    as (rows' & Hrows' & _).
  rewrite Hrows'. cbn [rbind fst snd store]. split; [reflexivity|].
  unfold stored. rewrite !current_insert. cbn [t_rows].
  rewrite (rmap_same _ _ _ (check_row_same (t_columns (current db))) Hrows').
  apply Permutation_app; [reflexivity|].
  symmetry. now apply select_rows_Permutation.
Qed.

(** X16.  The counts in the log of a run that returned fit together: the
    number of rows inserted lies between zero and the number of rows
    read, and the table then has the rows it had plus the rows
    inserted. *)
Theorem logged_counts_bounded file db (w : world (D:=D)) :
  run file db = (Ok tt, w) ->
  exists n b d,
    log w = [reading_line; rows_read_line n; before_line b; inserted_line d]
    /\ (0 <= d <= n)%Z
    /\ (0 <= b)%Z
    /\ count_properties (store w) = Ok (b + d)%Z.
Proof.
  intros Hrun.
  destruct (read_json file) as [batch|e] eqn:Hr;
    [|rewrite (run_read_raise _ _ _ Hr) in Hrun; discriminate].
  rewrite (run_read_ok _ _ _ Hr) in Hrun.
  destruct (insert_into (current db) (select_rows batch)) as [t'|e] eqn:Hi; [|discriminate].
  injection Hrun as <-. rewrite (insert_into_ok _ _ _ Hi). cbn [store log t_rows].
  fold (stored db).
  exists (num_rows batch), (Z.of_nat (length (stored db))),
         (Z.of_nat (length (stored db ++ select_rows batch)) - Z.of_nat (length (stored db)))%Z.
  split; [reflexivity|].
  rewrite length_app, select_rows_length.
  pose proof (length_filter (fun r => selected r = true) batch) as Hle.
  unfold num_rows. split; [lia|]. split; [lia|].
  unfold count_properties. rewrite lookup_insert_eq. cbn [t_rows].
  rewrite length_app, select_rows_length. f_equal. lia.
Qed.

End Coverage.

(** ** The further properties at the example inputs *)


Lemma other_tables_untouched_witness :
  "audit"%string <> "properties"%string
  /\ runs [Examples.four_lines; Examples.unlocated_file] Examples.two_tables !! "audit"%string
     = Some Examples.other_table.
Proof.
  split; [discriminate|].
  rewrite (other_tables_untouched
             [Examples.four_lines; Examples.unlocated_file] Examples.two_tables "audit")
    by discriminate.
  vm_compute. reflexivity.
Defined.

Lemma table_never_altered_witness :
  exists t t' rows,
    Examples.one_row_stored !! "properties"%string = Some t
    /\ runs [Examples.four_lines; Examples.unlocated_file] Examples.one_row_stored
         !! "properties"%string = Some t'
    /\ t_columns t' = t_columns t
    /\ t_rows t' = [Examples.listing_row] ++ rows.
Proof.
  assert (Examples.one_row_stored !! "properties"%string
          = Some {| t_columns := properties_columns; t_rows := [Examples.listing_row] |})
    as Ht by (vm_compute; reflexivity).
  destruct (table_never_altered
              [Examples.four_lines; Examples.unlocated_file] _ _ Ht)
    as (t' & rows & Ht' & Hc & Hr).
  eexists _, t', rows. split; [exact Ht|]. split; [exact Ht'|]. split; [exact Hc | exact Hr].
Defined.

Lemma failure_stages_witness :
  (run Examples.unlocated_file Examples.no_table).1
  = Raise (ConstraintException "municipality")
  /\ store (run Examples.unlocated_file Examples.no_table).2 !! "properties"%string
     = Some {| t_columns := properties_columns; t_rows := [] |}.
Proof.
  assert ((run Examples.unlocated_file Examples.no_table).1
          = Raise (ConstraintException "municipality")) as Hrun
    by (vm_compute; reflexivity).
  split; [exact Hrun|].
  destruct (failure_stages _ _ _ Hrun) as [(Hbad & _)|(_ & batch & _ & _ & Htable)];
    [discriminate | exact Htable].
Defined.

Lemma repeated_runs_witness :
  stored Examples.no_table = []
  /\ stored (runs (replicate 3 [Object Examples.listing]) Examples.no_table)
     = [Examples.listing_row; Examples.listing_row; Examples.listing_row].
Proof.
  split; [reflexivity|].
  assert (run [Object Examples.listing] Examples.no_table
          = (Ok tt, (run [Object Examples.listing] Examples.no_table).2)) as Hrun
    by (vm_compute; reflexivity).
  destruct (repeated_runs _ Examples.no_table _ 3 eq_refl Hrun) as [Hrows _].
  rewrite Hrows. vm_compute. reflexivity.
Defined.

Lemma text_after_marker_ignored_witness :
  price (Examples.record_priced "530 000€/mo.")
  = price (Examples.record_priced "530 000€ per month, heating included").
Proof.
  apply (text_after_marker_ignored _ _ "530 000" "/mo." " per month, heating included");
    reflexivity.
Defined.

Lemma amount_is_cast_witness :
  Text.occurs Text.euro "530 000" = false
  /\ price (Examples.record_priced "530 000€/mo.") = Some 530000%Q
  /\ price (Examples.record_priced "530 000") = Some 530000%Q.
Proof.
  split; [reflexivity|]. split.
  - rewrite (amount_is_cast (Examples.record_priced "530 000€/mo.") "530 000" "/mo." eq_refl)
      by (left; reflexivity).
    reflexivity.
  - rewrite (amount_is_cast (Examples.record_priced "530 000") "530 000" "" eq_refl)
      by (right; reflexivity).
    reflexivity.
Defined.

Lemma failed_run_repeats_witness :
  (run Examples.unlocated_file Examples.no_table).1
  = Raise (ConstraintException "municipality")
  /\ run Examples.unlocated_file (store (run Examples.unlocated_file Examples.no_table).2)
     = run Examples.unlocated_file Examples.no_table.
Proof.
  assert ((run Examples.unlocated_file Examples.no_table).1
          = Raise (ConstraintException "municipality")) as Hrun
    by (vm_compute; reflexivity).
  split; [exact Hrun|]. exact (failed_run_repeats _ _ _ Hrun).
Defined.

Lemma line_order_irrelevant_witness :
  [Object Examples.listing; Object Examples.not_a_price]
    ≡ₚ [Object Examples.not_a_price; Object Examples.listing]
  /\ (run [Object Examples.not_a_price; Object Examples.listing] Examples.no_table).1 = Ok tt
  /\ stored (store (run [Object Examples.not_a_price; Object Examples.listing]
                        Examples.no_table).2)
     ≡ₚ stored (store (run [Object Examples.listing; Object Examples.not_a_price]
                           Examples.no_table).2).
Proof.
  assert ([Object Examples.listing; Object Examples.not_a_price]
            ≡ₚ [Object Examples.not_a_price; Object Examples.listing]) as Hp
    by apply perm_swap.
  split; [exact Hp|].
  apply (line_order_irrelevant _ _ Examples.no_table Hp).
  vm_compute. reflexivity.
Defined.

Lemma logged_counts_bounded_witness :
  exists w,
    run Examples.four_lines Examples.one_row_stored = (Ok tt, w)
    /\ exists n b d,
         log w = [reading_line; rows_read_line n; before_line b; inserted_line d]
         /\ (0 <= d <= n)%Z.
Proof.
  assert (run Examples.four_lines Examples.one_row_stored
          = (Ok tt, (run Examples.four_lines Examples.one_row_stored).2)) as Hrun
    by (vm_compute; reflexivity).
  eexists. split; [exact Hrun|].
  destruct (logged_counts_bounded _ _ _ Hrun) as (n & b & d & Hlog & Hd & _).
  exists n, b, d. split; [exact Hlog | exact Hd].
Defined.
